(** * Math_Tutor: the event handlers and the tool-response formatter

    A shallow embedding of [src/utils.py] ([parse_tool_response]),
    [src/tools.py] ([MathTools.calculate_statistics]) and [src/handlers.py]
    ([MATH_PATTERN], [extract_text_from_result] and the three Slack event
    handlers), followed by the properties of these functions.

    Conventions of the embedding.
    - A Python [str] is a [string]: the sequence of the bytes of its UTF-8
      encoding.  The pattern of [re.IGNORECASE] is made of ASCII characters;
      the characters it matches and the white space of [str.strip] are
      those of Unicode, written in UTF-8.
    - A Python [float] is a binary64 number, a [spec_float] of the core
      library with precision 53 and maximal exponent 1024.
    - A value of type [Any] is a [pyval]; a [dict] with string keys is an
      association list in insertion order.
    - A Python call that may raise returns a [result]: [inl e] is the raised
      exception, [inr v] the returned value. *)

From Stdlib Require Import ZArith List String Ascii Bool Lia.
From Stdlib Require Import Numbers.DecimalString.
From Corelib Require Import SpecFloat.
Import ListNotations.

Local Open Scope string_scope.
Local Open Scope Z_scope.
Set Warnings "-register-all".

(* ================================================================== *)
(** ** Python values, exceptions and the built-ins the code relies on *)

Module Py.

(** The line feed, written ["\n"] in the source. *)
Definition nl : string := String (ascii_of_nat 10) EmptyString.

(** Exceptions, with the message [str(e)] shows. *)
Inductive exn : Type :=
| KeyError (key : string)
| TypeError (msg : string)
| ValueError (msg : string)
| AttributeError (msg : string)
| OverflowError (msg : string)
| IndexError (msg : string)
| Exception (msg : string).

Definition result (A : Type) : Type := (exn + A)%type.

Definition ok {A : Type} (a : A) : result A := inr a.
Definition raise {A : Type} (e : exn) : result A := inl e.

Definition bind {A B : Type} (m : result A) (k : A -> result B) : result B :=
  match m with
  | inl e => inl e
  | inr a => k a
  end.

Declare Scope result_scope.
Delimit Scope result_scope with result.
Notation "x <- m ;; k" := (bind m (fun x => k))
  (at level 61, m at next level, right associativity) : result_scope.
Local Open Scope result_scope.

(** [str(e)]: a [KeyError] shows the [repr] of its key, the others their
    message. *)
Definition str_exn (e : exn) : string :=
  match e with
  | KeyError k => "'" ++ k ++ "'"
  | TypeError m | ValueError m | AttributeError m
  | OverflowError m | IndexError m | Exception m => m
  end.

Definition float : Type := spec_float.

Inductive pyval : Type :=
| VNone
| VBool (b : bool)
| VInt (z : Z)
| VFloat (f : float)
| VStr (s : string)
| VList (l : list pyval)
| VDict (d : list (string * pyval)).

Definition pydict : Type := list (string * pyval).

(** [type(v).__name__] *)
Definition type_name (v : pyval) : string :=
  match v with
  | VNone => "NoneType"
  | VBool _ => "bool"
  | VInt _ => "int"
  | VFloat _ => "float"
  | VStr _ => "str"
  | VList _ => "list"
  | VDict _ => "dict"
  end.

(** Truth value of an object, as tested by [if] and [not]. *)
Definition truthy (v : pyval) : bool :=
  match v with
  | VNone => false
  | VBool b => b
  | VInt z => negb (z =? 0)
  | VFloat (S754_zero _) => false
  | VFloat _ => true
  | VStr s => negb (String.eqb s "")
  | VList l => match l with [] => false | _ => true end
  | VDict d => match d with [] => false | _ => true end
  end.

(** *** Dictionaries *)

Fixpoint lookup (k : string) (d : pydict) : option pyval :=
  match d with
  | [] => None
  | (k', v) :: d' => if String.eqb k k' then Some v else lookup k d'
  end.

(** [k in d] *)
Definition contains (d : pydict) (k : string) : bool :=
  match lookup k d with Some _ => true | None => false end.

(** [d.get(k, default)] *)
Definition get (d : pydict) (k : string) (default : pyval) : pyval :=
  match lookup k d with Some v => v | None => default end.

(** [d[k]] *)
Definition getitem (d : pydict) (k : string) : result pyval :=
  match lookup k d with Some v => ok v | None => raise (KeyError k) end.

(** [v.get(k)] on an arbitrary object: only a [dict] has the method. *)
Definition get_method (v : pyval) (k : string) : result (option pyval) :=
  match v with
  | VDict d => ok (lookup k d)
  | _ => raise (AttributeError
                  ("'" ++ type_name v ++ "' object has no attribute 'get'"))
  end.

(** *** Decimal numerals *)

Definition str_Z (z : Z) : string := NilZero.string_of_int (Z.to_int z).

Definition str_nat (n : nat) : string := str_Z (Z.of_nat n).

Definition digit (d : Z) : ascii := ascii_of_nat (48 + Z.to_nat d).

(** The [k] low decimal digits of [n], most significant first. *)
Fixpoint digits (k : nat) (n : Z) : string :=
  match k with
  | O => EmptyString
  | S k' => digits k' (n / 10) ++ String (digit (n mod 10)) EmptyString
  end.

(** *** Fixed-point formatting of floats: the format spec [.<p>f] *)

(** The integer nearest to [num / den], ties to the even one
    ([num >= 0], [den > 0]). *)
Definition round_half_even (num den : Z) : Z :=
  let q := num / den in
  let r := num mod den in
  match Z.compare (2 * r) den with
  | Lt => q
  | Gt => q + 1
  | Eq => if Z.even q then q else q + 1
  end.

(** [|m * 2^e| * 10^p] rounded to an integer, ties to even: the float's
    exact value is what is rounded. *)
Definition scaled (p : nat) (m : positive) (e : Z) : Z :=
  let t := 10 ^ Z.of_nat p in
  if 0 <=? e then Z.pos m * 2 ^ e * t
  else round_half_even (Z.pos m * t) (2 ^ (- e)).

Definition fixed (p : nat) (n : Z) : string :=
  let t := 10 ^ Z.of_nat p in
  str_Z (n / t) ++ "." ++ digits p (n mod t).

Definition sign_str (s : bool) : string := if s then "-" else "".

(** [format(x, ".<p>f")] for a float [x] ([p > 0]). *)
Definition format_f (p : nat) (x : float) : string :=
  match x with
  | S754_nan => "nan"
  | S754_infinity s => sign_str s ++ "inf"
  | S754_zero s => sign_str s ++ fixed p 0
  | S754_finite s m e => sign_str s ++ fixed p (scaled p m e)
  end.

(** [float(z)] for an [int]: the nearest binary64 number, or
    [OverflowError]. *)
Definition float_of_int (z : Z) : result float :=
  match binary_normalize 53 1024 z 0 false with
  | S754_infinity _ | S754_nan =>
      raise (OverflowError "int too large to convert to float")
  | f => ok f
  end.

(** [format(v, ".<p>f")] for an arbitrary object. *)
Definition format_spec_f (p : nat) (v : pyval) : result string :=
  match v with
  | VFloat x => ok (format_f p x)
  | VInt z => x <- float_of_int z ;; ok (format_f p x)
  | VBool b => ok (format_f p (binary_normalize 53 1024 (Z.b2z b) 0 false))
  | VStr _ =>
      raise (ValueError "Unknown format code 'f' for object of type 'str'")
  | _ => raise (TypeError ("unsupported format string passed to "
                            ++ type_name v ++ ".__format__"))
  end.

(** *** Text *)

(** A continuation byte of UTF-8: [10xxxxxx]. *)
Definition is_continuation (c : ascii) : bool :=
  let n := nat_of_ascii c in (128 <=? n)%nat && (n <? 192)%nat.

(** The characters of a [str], each with its continuation bytes. *)
Fixpoint chars_from (cur : string) (s : string) : list string :=
  match s with
  | EmptyString => match cur with EmptyString => [] | _ => [cur] end
  | String c s' =>
      if is_continuation c then chars_from (cur ++ String c EmptyString) s'
      else match cur with
           | EmptyString => chars_from (String c EmptyString) s'
           | _ => cur :: chars_from (String c EmptyString) s'
           end
  end.

Definition chars (s : string) : list string := chars_from EmptyString s.

(** [sep.join(parts)] *)
Fixpoint join (sep : string) (parts : list string) : string :=
  match parts with
  | [] => ""
  | [p] => p
  | p :: ps => p ++ sep ++ join sep ps
  end.

(** [needle in hay] for two [str]. *)
Fixpoint prefix_of (p s : string) : bool :=
  match p, s with
  | EmptyString, _ => true
  | String a p', String b s' => Ascii.eqb a b && prefix_of p' s'
  | String _ _, EmptyString => false
  end.

Fixpoint substring_of (needle hay : string) : bool :=
  prefix_of needle hay ||
  match hay with
  | EmptyString => false
  | String _ hay' => substring_of needle hay'
  end.

End Py.

Import Py.

(* ================================================================== *)
(** ** src/utils.py *)

Module Utils.

Local Open Scope result_scope.

Section Formatter.

(** Python's [repr], which [str] uses for floats, lists and dicts.  The
    code never inspects these renderings, so they stay abstract. *)
Variable repr : pyval -> string.

(** [str(v)], and what an f-string field [{v}] without format spec shows. *)
Definition str (v : pyval) : string :=
  match v with
  | VStr s => s
  | VInt z => str_Z z
  | VBool b => if b then "True" else "False"
  | VNone => "None"
  | _ => repr v
  end.

(** [for x in v]: the items a [for] loop over [v] visits. *)
Definition iterate (v : pyval) : result (list pyval) :=
  match v with
  | VList l => ok l
  | VStr s => ok (map VStr (chars s))
  | VDict d => ok (map (fun kv => VStr (fst kv)) d)
  | _ => raise (TypeError ("'" ++ type_name v ++ "' object is not iterable"))
  end.

(** The loop [for i, step in enumerate(steps, i): result += f"{i}. {step}\n"]. *)
Fixpoint numbered (i : nat) (steps : list pyval) (result : string) : string :=
  match steps with
  | [] => result
  | step :: steps' =>
      numbered (S i) steps' (result ++ str_nat i ++ ". " ++ str step ++ nl)
  end.

Definition format_solution (response : pydict) : result string :=
  solution <- getitem response "solution" ;;
  let result := "*Solution:* " ++ str solution ++ nl ++ nl in
  if contains response "steps" && truthy (get response "steps" VNone) then
    steps <- iterate (get response "steps" VNone) ;;
    ok (numbered 1 steps (result ++ "*Step-by-step solution:*" ++ nl))
  else ok result.

Definition format_statistics (response : pydict) : result string :=
  count <- getitem response "count" ;;
  mean <- (v <- getitem response "mean" ;; format_spec_f 4 v) ;;
  median <- (v <- getitem response "median" ;; format_spec_f 4 v) ;;
  std_dev <- (v <- getitem response "std_dev" ;; format_spec_f 4 v) ;;
  min <- (v <- getitem response "min" ;; format_spec_f 4 v) ;;
  max <- (v <- getitem response "max" ;; format_spec_f 4 v) ;;
  iqr <- (v <- getitem response "iqr" ;; format_spec_f 4 v) ;;
  ok ("*Statistical Analysis:*" ++ nl ++
      "• Count: " ++ str count ++ nl ++
      "• Mean: " ++ mean ++ nl ++
      "• Median: " ++ median ++ nl ++
      "• Standard Deviation: " ++ std_dev ++ nl ++
      "• Range: " ++ min ++ " to " ++ max ++ nl ++
      "• Interquartile Range: " ++ iqr).

Definition format_time (time : option pyval) : result string :=
  match time with
  | Some (VDict t) =>
      best <- getitem t "best" ;;
      average <- getitem t "average" ;;
      worst <- getitem t "worst" ;;
      ok ("*Time Complexity:*" ++ nl ++
          "• Best case: " ++ str best ++ nl ++
          "• Average case: " ++ str average ++ nl ++
          "• Worst case: " ++ str worst ++ nl)
  | Some v => ok ("*Time Complexity:* " ++ str v ++ nl)
  | None => ok ("*Time Complexity:* " ++ "Unknown" ++ nl)
  end.

Definition format_complexity (response : pydict) : result string :=
  complexity <- getitem response "complexity" ;;
  algorithm <- getitem response "algorithm" ;;
  let result := "*Algorithm:* " ++ str algorithm ++ nl ++ nl in
  time <- get_method complexity "time" ;;
  time_lines <- format_time time ;;
  let result := result ++ time_lines in
  match complexity with
  | VDict c =>
      let result :=
        result ++ "*Space Complexity:* " ++ str (get c "space" (VStr "Unknown")) ++ nl in
      let result :=
        if contains c "stable" then
          result ++ "*Stable:* " ++
          (if truthy (get c "stable" VNone) then "Yes" else "No") ++ nl
        else result in
      let result :=
        if contains c "description" then
          result ++ nl ++ "*Description:*" ++ nl ++ str (get c "description" VNone)
        else result in
      ok result
  | _ => raise (AttributeError
                  ("'" ++ type_name complexity ++ "' object has no attribute 'get'"))
  end.

Definition parse_tool_response (response : pydict) : result string :=
  if negb (truthy (get response "success" (VBool false))) then
    ok ("Error: " ++ str (get response "error" (VStr "Unknown error")))
  else if contains response "solution" then format_solution response
  else if contains response "mean" then format_statistics response
  else if contains response "complexity" then format_complexity response
  else ok (str (VDict response)).

End Formatter.

End Utils.

(* ================================================================== *)
(** ** src/tools.py *)

Module Tools.

Local Open Scope result_scope.

(** The functions of NumPy that [calculate_statistics] calls, on an array
    of floats.  NumPy is an external library: its functions are taken as
    given, each returning a float or raising. *)
Record numpy : Type := {
  percentile : list float -> list float -> result (list float);
  mean : list float -> result float;
  median : list float -> result float;
  std : list float -> result float;
  var : list float -> result float;
  min : list float -> result float;
  max : list float -> result float
}.

(** The binary64 number nearest to [m * 2^e]. *)
Definition dyadic (m e : Z) : float := binary_normalize 53 1024 m e false.

(** [float(z)] for an integer literal. *)
Definition lit (z : Z) : float := dyadic z 0.

(** [a[i]] on a sequence. *)
Definition index (a : list float) (i : nat) : result float :=
  match nth_error a i with
  | Some x => ok x
  | None => raise (IndexError "index out of bounds")
  end.

Section Statistics.

Variable np : numpy.

(** The body of the [try] block. *)
Definition calculate_statistics_body (numbers : list float) : result pydict :=
  let numbers_array := numbers in
  quartiles <- percentile np numbers_array [lit 25; lit 50; lit 75] ;;
  mean_ <- mean np numbers_array ;;
  median_ <- median np numbers_array ;;
  std_dev <- std np numbers_array ;;
  variance <- var np numbers_array ;;
  min_ <- min np numbers_array ;;
  max_ <- max np numbers_array ;;
  range <- (hi <- max np numbers_array ;; lo <- min np numbers_array ;;
            ok (SFsub 53 1024 hi lo)) ;;
  q1 <- index quartiles 0 ;;
  q3 <- index quartiles 2 ;;
  iqr <- (hi <- index quartiles 2 ;; lo <- index quartiles 0 ;;
          ok (SFsub 53 1024 hi lo)) ;;
  ok [ ("success", VBool true);
       ("count", VInt (Z.of_nat (List.length numbers)));
       ("mean", VFloat mean_);
       ("median", VFloat median_);
       ("std_dev", VFloat std_dev);
       ("variance", VFloat variance);
       ("min", VFloat min_);
       ("max", VFloat max_);
       ("range", VFloat range);
       ("q1", VFloat q1);
       ("q3", VFloat q3);
       ("iqr", VFloat iqr) ].

Definition calculate_statistics (numbers : list float) : pydict :=
  match calculate_statistics_body numbers with
  | inr response => response
  | inl e => [ ("success", VBool false); ("error", VStr (str_exn e)) ]
  end.

End Statistics.

(** *** A reference implementation of the NumPy functions

    The textbook formulas on lists, in binary64 arithmetic: an instance of
    [numpy] on which [calculate_statistics] can be run. *)

Section Reference.

Let fadd := SFadd 53 1024.
Let fsub := SFsub 53 1024.
Let fmul := SFmul 53 1024.
Let fdiv := SFdiv 53 1024.

Definition fsum (a : list float) : float := fold_left fadd a (lit 0).

Definition fmean (a : list float) : float :=
  fdiv (fsum a) (lit (Z.of_nat (List.length a))).

Fixpoint insert (x : float) (a : list float) : list float :=
  match a with
  | [] => [x]
  | y :: a' => if SFleb x y then x :: a else y :: insert x a'
  end.

Definition sort (a : list float) : list float := fold_right insert [] a.

Definition at_ (a : list float) (i : nat) : float := nth i a S754_nan.

Definition fmedian (a : list float) : float :=
  let s := sort a in
  let n := List.length s in
  if Nat.even n
  then fdiv (fadd (at_ s (n / 2 - 1)) (at_ s (n / 2))) (lit 2)
  else at_ s (n / 2).

Definition fvar (a : list float) : float :=
  let mu := fmean a in
  fmean (map (fun x => fmul (fsub x mu) (fsub x mu)) a).

(** The integer part of a non-negative float. *)
Definition floor (x : float) : nat :=
  match x with
  | S754_finite false m e =>
      Z.to_nat (if 0 <=? e then Z.pos m * 2 ^ e else Z.pos m / 2 ^ (- e))
  | _ => O
  end.

(** The [q]-th percentile by linear interpolation between the two nearest
    ranks. *)
Definition fpercentile (a : list float) (q : float) : float :=
  let s := sort a in
  let n := List.length s in
  let position := fmul (lit (Z.of_nat (n - 1))) (fdiv q (lit 100)) in
  let below := floor position in
  let above := Nat.min (S below) (n - 1) in
  let gamma := fsub position (lit (Z.of_nat below)) in
  fadd (at_ s below) (fmul (fsub (at_ s above) (at_ s below)) gamma).

Definition nonempty {A : Type} (what : string) (a : list float) (r : A)
  : result A :=
  match a with
  | [] => raise (ValueError what)
  | _ => ok r
  end.

Definition numpy_reference : numpy := {|
  percentile a qs :=
    match a with
    | [] => raise (IndexError "index -1 is out of bounds for axis 0 with size 0")
    | _ => ok (map (fpercentile a) qs)
    end;
  mean a := ok (fmean a);
  median a := ok (fmedian a);
  std a := ok (SFsqrt 53 1024 (fvar a));
  var a := ok (fvar a);
  min a :=
    nonempty "zero-size array to reduction operation minimum which has no identity"
             a (at_ (sort a) 0);
  max a :=
    nonempty "zero-size array to reduction operation maximum which has no identity"
             a (at_ (sort a) (List.length a - 1))
|}.

End Reference.


(** *** [calculate_complexity] *)

(** The table of the function, in the order of the source. *)
Definition complexity_map : pydict :=
  [ ("bubble_sort",
     VDict [ ("time", VDict [ ("best", VStr "O(n)");
               ("average", VStr "O(n²)");
               ("worst", VStr "O(n²)") ]);
             ("space", VStr "O(1)");
             ("stable", VBool true);
             ("description", VStr ("Simple comparison-based sorting algorithm that repeatedly " ++
             "steps through the list, compares adjacent elements, and " ++
             "swaps them if they are in the wrong order.")) ]);
    ("quick_sort",
     VDict [ ("time", VDict [ ("best", VStr "O(n log n)");
               ("average", VStr "O(n log n)");
               ("worst", VStr "O(n²)") ]);
             ("space", VStr "O(log n)");
             ("stable", VBool false);
             ("description", VStr ("Divide-and-conquer algorithm that selects a pivot element " ++
             "and partitions the array around the pivot.")) ]);
    ("merge_sort",
     VDict [ ("time", VDict [ ("best", VStr "O(n log n)");
               ("average", VStr "O(n log n)");
               ("worst", VStr "O(n log n)") ]);
             ("space", VStr "O(n)");
             ("stable", VBool true);
             ("description", VStr ("Divide-and-conquer algorithm that divides the input array " ++
             "into two halves, recursively sorts them, and then merges " ++
             "the sorted halves.")) ]);
    ("binary_search",
     VDict [ ("time", VDict [ ("best", VStr "O(1)");
               ("average", VStr "O(log n)");
               ("worst", VStr "O(log n)") ]);
             ("space", VStr "O(1)");
             ("description", VStr ("Search algorithm that finds the position of a target value " ++
             "within a sorted array by repeatedly dividing the search " ++
             "interval in half.")) ]);
    ("depth_first_search",
     VDict [ ("time", VStr "O(V + E)");
             ("space", VStr "O(V)");
             ("description", VStr ("Algorithm for traversing or searching tree or graph data " ++
             "structures that explores as far as possible along each " ++
             "branch before backtracking.")) ]);
    ("breadth_first_search",
     VDict [ ("time", VStr "O(V + E)");
             ("space", VStr "O(V)");
             ("description", VStr ("Algorithm for traversing or searching tree or graph data " ++
             "structures that explores all neighbors at the present " ++
             "depth before moving on to nodes at the next depth level.")) ]);
    ("dijkstra",
     VDict [ ("time", VStr "O((V + E) log V)");
             ("space", VStr "O(V)");
             ("description", VStr ("Algorithm for finding the shortest paths between nodes in " ++
             "a graph with non-negative edge weights.")) ]) ].

(** [algorithm_type in complexity_map] and [complexity_map[algorithm_type]]
    are one lookup. *)
Definition calculate_complexity (algorithm_type : string) : pydict :=
  match lookup algorithm_type complexity_map with
  | Some complexity =>
      [ ("success", VBool true);
        ("algorithm", VStr algorithm_type);
        ("complexity", complexity) ]
  | None =>
      [ ("success", VBool false);
        ("error",
         VStr ("Algorithm '" ++ algorithm_type ++ "' not found in database")) ]
  end.

End Tools.

(* ================================================================== *)
(** ** src/handlers.py *)

Module Handlers.

(** *** The two regular expressions *)

(** The alternatives of [MATH_PATTERN], in the order of the source. *)
Definition MATH_PATTERN : list string :=
  [ "math"; "algorithm"; "complexity"; "big o"; "equation"; "formula";
    "calculus"; "linear algebra"; "statistics"; "probability";
    "optimization"; "function"; "graph"; "plot"; "solve"; "compute";
    "matrix"; "vector"; "derivative"; "integral"; "theorem"; "proof" ].

(** Lower case of an ASCII letter; any other byte is left as it is. *)
Definition ascii_lower (c : ascii) : ascii :=
  let n := nat_of_ascii c in
  if (65 <=? n)%nat && (n <=? 90)%nat then ascii_of_nat (n + 32) else c.

(** A character, given by the bytes of its UTF-8 encoding. *)
Definition utf8 (bytes : list Z) : string :=
  string_of_list_ascii (map (fun b => ascii_of_nat (Z.to_nat b)) bytes).

(** What follows [p] in [s], when [s] starts with [p]. *)
Fixpoint strip_prefix (p s : string) : option string :=
  match p, s with
  | EmptyString, _ => Some s
  | String a p', String b s' =>
      if Ascii.eqb a b then strip_prefix p' s' else None
  | String _ _, EmptyString => None
  end.

(** What follows the first of [ps] that [s] starts with. *)
Fixpoint first_prefix (ps : list string) (s : string) : option string :=
  match ps with
  | [] => None
  | p :: ps' =>
      match strip_prefix p s with
      | Some rest => Some rest
      | None => first_prefix ps' s
      end
  end.

(** The characters beyond ASCII that [re.IGNORECASE] takes for an ASCII
    letter, given in lower case: U+0130 and U+0131 for [i], U+017F for [s]
    and U+212A for [k].  No other character stands for an ASCII one. *)
Definition fold_equivalents (lo : ascii) : list string :=
  if Ascii.eqb lo "i" then [ utf8 [196; 176]; utf8 [196; 177] ]
  else if Ascii.eqb lo "s" then [ utf8 [197; 191] ]
  else if Ascii.eqb lo "k" then [ utf8 [226; 132; 170] ]
  else [].

(** The character at the start of [s] matched against the ASCII pattern
    character [p], ignoring case: what follows it in [s]. *)
Definition match_char (p : ascii) (s : string) : option string :=
  match s with
  | String c s' =>
      if Ascii.eqb (ascii_lower p) (ascii_lower c) then Some s'
      else first_prefix (fold_equivalents (ascii_lower p)) s
  | EmptyString => None
  end.

(** Does the literal [p], of ASCII characters, match at the start of [s],
    ignoring case? *)
Fixpoint match_here (p s : string) : bool :=
  match p with
  | EmptyString => true
  | String a p' =>
      match match_char a s with
      | Some rest => match_here p' rest
      | None => false
      end
  end.

(** Does one of the alternatives match at the start of [s]? *)
Definition match_alternatives (alts : list string) (s : string) : bool :=
  existsb (fun p => match_here p s) alts.

(** [re.compile("(a|b|...)", re.IGNORECASE).search(s)] is a match: some
    alternative matches at some position of [s]. *)
Fixpoint search (alts : list string) (s : string) : bool :=
  match_alternatives alts s ||
  match s with
  | EmptyString => false
  | String _ s' => search alts s'
  end.

(** The character class [[A-Z0-9]]. *)
Definition is_id_char (c : ascii) : bool :=
  let n := nat_of_ascii c in
  ((65 <=? n)%nat && (n <=? 90)%nat) || ((48 <=? n)%nat && (n <=? 57)%nat).

(** Length of the longest prefix of [s] in [[A-Z0-9]], and what follows. *)
Fixpoint id_run (s : string) : nat * string :=
  match s with
  | String c s' =>
      if is_id_char c then let (n, rest) := id_run s' in (S n, rest)
      else (O, s)
  | EmptyString => (O, s)
  end.

(** Length of the match of [<@[A-Z0-9]+>] at the start of [s], if any. *)
Definition mention_at (s : string) : option nat :=
  match s with
  | String "<" (String "@" s') =>
      match id_run s' with
      | (S n, String ">" _) => Some (2 + S n + 1)%nat
      | _ => None
      end
  | _ => None
  end.

(** [re.sub(r"<@[A-Z0-9]+>", "", s)]: every match, scanning from the left,
    is removed.  [skip] counts the characters of the current match still to
    drop. *)
Fixpoint sub_mentions (skip : nat) (s : string) : string :=
  match s with
  | EmptyString => EmptyString
  | String c s' =>
      match skip with
      | S k => sub_mentions k s'
      | O =>
          match mention_at s with
          | Some n => sub_mentions (Nat.pred n) s'
          | None => String c (sub_mentions O s')
          end
      end
  end.

(** The white-space characters of one byte: U+0009 to U+000D and U+001C to
    U+0020. *)
Definition is_ascii_space (c : ascii) : bool :=
  let n := nat_of_ascii c in
  ((9 <=? n)%nat && (n <=? 13)%nat) || ((28 <=? n)%nat && (n <=? 32)%nat).

(** The other white-space characters of [str]: U+0085, U+00A0, U+1680,
    U+2000 to U+200A, U+2028, U+2029, U+202F, U+205F and U+3000. *)
Definition unicode_spaces : list string :=
  [ utf8 [194; 133]; utf8 [194; 160]; utf8 [225; 154; 128];
    utf8 [226; 128; 128]; utf8 [226; 128; 129]; utf8 [226; 128; 130];
    utf8 [226; 128; 131]; utf8 [226; 128; 132]; utf8 [226; 128; 133];
    utf8 [226; 128; 134]; utf8 [226; 128; 135]; utf8 [226; 128; 136];
    utf8 [226; 128; 137]; utf8 [226; 128; 138]; utf8 [226; 128; 168];
    utf8 [226; 128; 169]; utf8 [226; 128; 175]; utf8 [226; 129; 159];
    utf8 [227; 128; 128] ].

(** What follows the white-space character at the start of [s], when [s]
    starts with one. *)
Definition space_at (s : string) : option string :=
  match s with
  | String c s' =>
      if is_ascii_space c then Some s' else first_prefix unicode_spaces s
  | EmptyString => None
  end.

(** White-space characters are dropped from the left, at most [n] of
    them. *)
Fixpoint lstrip_upto (n : nat) (s : string) : string :=
  match n with
  | O => s
  | S n' =>
      match space_at s with
      | Some rest => lstrip_upto n' rest
      | None => s
      end
  end.

(** [s.lstrip()]: a text has no more characters than bytes. *)
Definition lstrip (s : string) : string := lstrip_upto (String.length s) s.

(** [w] is one white-space character. *)
Definition is_space_char (w : string) : bool :=
  match space_at w with
  | Some EmptyString => true
  | _ => false
  end.

(** [s.rstrip()]: from the right, a character is dropped when what is
    kept after it is empty and it is white space. *)
Fixpoint rstrip (s : string) : string :=
  match s with
  | EmptyString => EmptyString
  | String c s' =>
      let r := rstrip s' in
      if is_space_char (String c r) then EmptyString else String c r
  end.

(** [s.strip()] *)
Definition strip (s : string) : string := rstrip (lstrip s).

(** *** [extract_text_from_result] *)

(** An [AgentResult], as far as the handlers look at it: the attribute
    [content], when the object has one, and the rendering [str(result)]. *)
Record AgentResult : Type := {
  content : option pyval;
  result_str : string
}.

(** The loop over [result.content]: the [text] of every block that is a
    dict with that key, in order. *)
Fixpoint collect_text (blocks : list pyval) : list pyval :=
  match blocks with
  | [] => []
  | VDict block :: blocks' =>
      match lookup "text" block with
      | Some t => t :: collect_text blocks'
      | None => collect_text blocks'
      end
  | _ :: blocks' => collect_text blocks'
  end.

(** The items of [sep.join(parts)] must be [str]; [i] is the index of the
    first item of [parts]. *)
Fixpoint join_items (i : nat) (parts : list pyval) : result (list string) :=
  match parts with
  | [] => ok []
  | VStr s :: parts' =>
      match join_items (S i) parts' with
      | inr ss => ok (s :: ss)
      | inl e => inl e
      end
  | v :: _ =>
      raise (TypeError ("sequence item " ++ str_nat i ++
                        ": expected str instance, " ++ type_name v ++ " found"))
  end.

Definition extract_text_from_result (result : AgentResult) : Py.result string :=
  match content result with
  | Some (VStr s) => ok s
  | c =>
      let text_parts :=
        match c with
        | Some (VList blocks) => collect_text blocks
        | _ => []
        end in
      match text_parts with
      | _ :: _ =>
          match join_items 0 text_parts with
          | inr ss => ok (join nl ss)
          | inl e => inl e
          end
      | [] => ok (result_str result)
      end
  end.

(** *** Collaborators and the calls made to them *)

(** The calls a handler makes on the Slack client, the agent and the
    logger, with their arguments. *)
Inductive call : Type :=
| ReactionsAdd (channel timestamp name : string)
| ChatPostMessage (channel thread_ts text : string)
| AuthTest
| ConversationsHistory (channel latest : string) (inclusive : bool) (limit : Z)
| AgentCall (text : string)
| LoggerError (msg : string).

(** [self.app.client]: each method returns or raises.  [auth_test] gives
    the [user_id] of its response, [conversations_history] the optional
    [text] of each of the [messages] of its response. *)
Record client : Type := {
  reactions_add : string -> string -> string -> result unit;
  chat_postMessage : string -> string -> string -> result unit;
  auth_test : result string;
  conversations_history :
    string -> string -> bool -> Z -> result (list (option string))
}.

(** The payload [body["event"]] of a [message] or [app_mention] event. *)
Record MessageEvent : Type := {
  channel : string;
  ts : string;
  thread_ts : option string;
  text : option string;
  bot_id : option string
}.

(** The payload of a [reaction_added] event. *)
Record ReactionEvent : Type := {
  user : option string;
  reaction : option string;
  item_channel : string;
  item_ts : string
}.

(** A handler run: the calls made, in order, and how the run ended. *)
Definition io (A : Type) : Type := (list call * result A)%type.

Definition ret {A : Type} (a : A) : io A := ([], inr a).

Definition io_bind {A B : Type} (m : io A) (k : A -> io B) : io B :=
  match m with
  | (t, inl e) => (t, inl e)
  | (t, inr a) => let (t', r) := k a in ((t ++ t')%list, r)
  end.

(** [try: m except Exception as e: handler e] *)
Definition try_except {A : Type} (m : io A) (handler : exn -> io A) : io A :=
  match m with
  | (t, inl e) => let (t', r) := handler e in ((t ++ t')%list, r)
  | (t, inr a) => (t, inr a)
  end.

(** A call on a collaborator, recorded with its outcome. *)
Definition perform {A : Type} (c : call) (r : result A) : io A := ([c], r).

(** A computation that calls nobody. *)
Definition pure {A : Type} (r : result A) : io A := ([], r).

Declare Scope io_scope.
Delimit Scope io_scope with io.
Notation "x <- m ;; k" := (io_bind m (fun x => k))
  (at level 61, m at next level, right associativity) : io_scope.

Definition trace {A : Type} (m : io A) : list call := fst m.
Definition outcome {A : Type} (m : io A) : result A := snd m.

Definition placeholder : string :=
  "I've generated a plot for you, but I can't display it directly in Slack. " ++
  "Here's the textual explanation instead.".

Definition error_reply (e : exn) : string :=
  "I encountered an error while processing your request: " ++ str_exn e.

(** [event.get("bot_id")] as a condition. *)
Definition is_bot (event : MessageEvent) : bool :=
  match bot_id event with
  | Some b => negb (String.eqb b "")
  | None => false
  end.

(** [event.get("thread_ts", event["ts"])] *)
Definition thread_of (event : MessageEvent) : string :=
  match thread_ts event with Some t => t | None => ts event end.

(** [event.get("text", "")] *)
Definition text_of (event : MessageEvent) : string :=
  match text event with Some t => t | None => "" end.

Section SlackEventHandlers.

(** [self.app.client], [self.agent] *)
Variable app_client : client.
Variable agent : string -> result AgentResult.

Local Open Scope io_scope.

Definition logger_error (msg : string) : io unit :=
  perform (LoggerError msg) (ok tt).

Definition post (channel_id thread text_response : string) : io unit :=
  perform (ChatPostMessage channel_id thread text_response)
          (chat_postMessage app_client channel_id thread text_response).

Definition handle_message_events (event : MessageEvent) : io unit :=
  if is_bot event then ret tt
  else
    let channel_id := channel event in
    let thread := thread_of event in
    let user_message := text_of event in
    if search MATH_PATTERN user_message then
      _ <- try_except
             (perform (ReactionsAdd channel_id (ts event) "brain")
                      (reactions_add app_client channel_id (ts event) "brain"))
             (fun e => logger_error ("Error adding reaction: " ++ str_exn e)) ;;
      try_except
        (result <- perform (AgentCall user_message) (agent user_message) ;;
         text_response <- pure (extract_text_from_result result) ;;
         let text_response :=
           if substring_of "image_base64" text_response then placeholder
           else text_response in
         post channel_id thread text_response)
        (fun e =>
           _ <- logger_error ("Error processing message: " ++ str_exn e) ;;
           post channel_id thread (error_reply e))
    else ret tt.

Definition handle_app_mentions (event : MessageEvent) : io unit :=
  let channel_id := channel event in
  let thread := thread_of event in
  let user_message := text_of event in
  let user_message := strip (sub_mentions 0 user_message) in
  try_except
    (result <- perform (AgentCall user_message) (agent user_message) ;;
     text_response <- pure (extract_text_from_result result) ;;
     post channel_id thread text_response)
    (fun e =>
       _ <- logger_error ("Error processing mention: " ++ str_exn e) ;;
       post channel_id thread (error_reply e)).

Definition eqb_option (a : option string) (b : string) : bool :=
  match a with Some a' => String.eqb a' b | None => false end.

Definition handle_reaction_added (event : ReactionEvent) : io unit :=
  user_id <- perform AuthTest (auth_test app_client) ;;
  if eqb_option (user event) user_id then ret tt
  else if eqb_option (reaction event) "question"
          || eqb_option (reaction event) "grey_question" then
    let channel_id := item_channel event in
    let message_ts := item_ts event in
    try_except
      (messages <- perform (ConversationsHistory channel_id message_ts true 1)
                     (conversations_history app_client channel_id message_ts true 1) ;;
       match messages with
       | first :: _ =>
           let user_message := match first with Some t => t | None => "" end in
           agent_result <- perform (AgentCall user_message) (agent user_message) ;;
           text_response <- pure (extract_text_from_result agent_result) ;;
           post channel_id message_ts text_response
       | [] => ret tt
       end)
      (fun e => logger_error ("Error processing reaction: " ++ str_exn e))
  else ret tt.

End SlackEventHandlers.

End Handlers.

(* ================================================================== *)
(** ** Specification-side definitions *)

Module Spec.

(** *** Well-formed tool responses *)

(** What the format spec [.4f] accepts: a float, a bool, or an int in the
    range of the floats. *)
Definition is_number (v : pyval) : bool :=
  match v with
  | VFloat _ | VBool _ => true
  | VInt z => match float_of_int z with inr _ => true | inl _ => false end
  | _ => false
  end.

(** What a [for] loop accepts. *)
Definition is_iterable (v : pyval) : bool :=
  match v with
  | VList _ | VStr _ | VDict _ => true
  | _ => false
  end.

(** The statistics the formatter renders with [.4f], in the order of the
    source. *)
Definition float_statistics : list string :=
  [ "mean"; "median"; "std_dev"; "min"; "max"; "iqr" ].

Definition number_at (response : pydict) (k : string) : bool :=
  match lookup k response with Some v => is_number v | None => false end.

Definition well_formed_solution (response : pydict) : bool :=
  match lookup "steps" response with
  | Some steps => negb (truthy steps) || is_iterable steps
  | None => true
  end.

Definition well_formed_statistics (response : pydict) : bool :=
  contains response "count" && forallb (number_at response) float_statistics.

Definition well_formed_time (time : option pyval) : bool :=
  match time with
  | Some (VDict t) => contains t "best" && contains t "average" && contains t "worst"
  | _ => true
  end.

Definition well_formed_complexity (response : pydict) : bool :=
  contains response "algorithm" &&
  match lookup "complexity" response with
  | Some (VDict c) => well_formed_time (lookup "time" c)
  | _ => false
  end.

(** The precondition of [parse_tool_response], branch by branch in the
    order of its dispatch. *)
Definition well_formed (response : pydict) : bool :=
  if negb (truthy (get response "success" (VBool false))) then true
  else if contains response "solution" then well_formed_solution response
  else if contains response "mean" then well_formed_statistics response
  else if contains response "complexity" then well_formed_complexity response
  else true.

(** The precondition on the keys alone. *)
Definition keys_present (response : pydict) : bool :=
  if negb (truthy (get response "success" (VBool false))) then true
  else if contains response "solution" then true
  else if contains response "mean" then
    forallb (contains response)
            [ "count"; "median"; "std_dev"; "min"; "max"; "iqr" ]
  else if contains response "complexity" then
    contains response "algorithm" &&
    match lookup "complexity" response with
    | Some (VDict c) => well_formed_time (lookup "time" c)
    | _ => true
    end
  else true.

(** *** Fixed-point numerals *)

Definition is_finite (x : float) : bool :=
  match x with
  | S754_zero _ | S754_finite _ _ _ => true
  | S754_infinity _ | S754_nan => false
  end.

(** [n] is the integer nearest to the rational [num / den], the even one
    when two integers are equally near ([den > 0]). *)
Definition nearest_even (n num den : Z) : Prop :=
  2 * Z.abs (n * den - num) <= den /\
  (2 * Z.abs (n * den - num) = den -> Z.even n = true).

Definition is_digit (c : ascii) : bool :=
  let n := nat_of_ascii c in (48 <=? n)%nat && (n <=? 57)%nat.

Fixpoint all_digits (s : string) : bool :=
  match s with
  | EmptyString => true
  | String c s' => is_digit c && all_digits s'
  end.

(** The text ends with a point followed by exactly four digits. *)
Fixpoint four_decimals (s : string) : bool :=
  match s with
  | EmptyString => false
  | String c s' =>
      (Ascii.eqb c "." && (String.length s' =? 4)%nat && all_digits s')
      || four_decimals s'
  end.

(** The number a string of digits denotes. *)
Fixpoint decimal_value_from (acc : Z) (s : string) : Z :=
  match s with
  | EmptyString => acc
  | String c s' =>
      decimal_value_from (10 * acc + (Z.of_nat (nat_of_ascii c) - 48)) s'
  end.

Definition decimal_value (s : string) : Z := decimal_value_from 0 s.

(** The statistics block of [parse_tool_response], given the rendering of
    each number. *)
Definition statistics_block (count mean median std_dev min max iqr : string)
  : string :=
  "*Statistical Analysis:*" ++ nl ++
  "• Count: " ++ count ++ nl ++
  "• Mean: " ++ mean ++ nl ++
  "• Median: " ++ median ++ nl ++
  "• Standard Deviation: " ++ std_dev ++ nl ++
  "• Range: " ++ min ++ " to " ++ max ++ nl ++
  "• Interquartile Range: " ++ iqr.

(** *** Events and calls *)

(** The vocabulary as the specification lists it. *)
Definition spec_vocabulary : list string :=
  [ "math"; "algorithm"; "complexity"; "equation"; "formula"; "calculus";
    "statistics"; "probability"; "matrix"; "vector"; "derivative";
    "integral"; "theorem"; "proof"; "graph"; "plot"; "solve"; "compute";
    "function"; "big-O"; "linear algebra"; "optimization" ].

(** The text with its ASCII letters in lower case. *)
Fixpoint lower_string (s : string) : string :=
  match s with
  | EmptyString => EmptyString
  | String c s' => String (Handlers.ascii_lower c) (lower_string s')
  end.

(** [p] occurs in [s]. *)
Definition occurs_in (p s : string) : Prop :=
  exists before after, s = before ++ p ++ after.

(** The character [c] is the ASCII character [p] up to case, as
    [re.IGNORECASE] has it: [p] itself, in either case if it is a letter,
    or one of the characters beyond ASCII that stand for it. *)
Definition same_letter (p : ascii) (c : string) : Prop :=
  (exists b, c = String b EmptyString /\
             Handlers.ascii_lower b = Handlers.ascii_lower p) \/
  In c (Handlers.fold_equivalents (Handlers.ascii_lower p)).

(** [w] is [keyword], character by character, up to case. *)
Fixpoint spells (keyword w : string) : Prop :=
  match keyword with
  | EmptyString => w = EmptyString
  | String p keyword' =>
      exists c w', w = c ++ w' /\ same_letter p c /\ spells keyword' w'
  end.

(** The text holds a keyword of [vocabulary], ignoring case. *)
Definition mentions (vocabulary : list string) (text : string) : Prop :=
  exists p w, In p vocabulary /\ spells p w /\ occurs_in w text.

(** The calls made on the Slack client. *)
Definition is_client_call (c : Handlers.call) : bool :=
  match c with
  | Handlers.ReactionsAdd _ _ _ | Handlers.ChatPostMessage _ _ _
  | Handlers.AuthTest | Handlers.ConversationsHistory _ _ _ _ => true
  | Handlers.AgentCall _ | Handlers.LoggerError _ => false
  end.

Definition client_calls (t : list Handlers.call) : list Handlers.call :=
  filter is_client_call t.

Definition is_post (c : Handlers.call) : bool :=
  match c with Handlers.ChatPostMessage _ _ _ => true | _ => false end.

(** The texts posted, in order. *)
Fixpoint posted (t : list Handlers.call) : list string :=
  match t with
  | [] => []
  | Handlers.ChatPostMessage _ _ text :: t' => text :: posted t'
  | _ :: t' => posted t'
  end.

(** The agent stage of a handler, invocation then extraction, raises [e]. *)
Definition agent_stage_raises
  (agent : string -> result Handlers.AgentResult) (query : string) (e : exn)
  : Prop :=
  agent query = inl e \/
  exists r, agent query = inr r /\ Handlers.extract_text_from_result r = inl e.

(** *** Text extraction, as the specification words it *)

(** The [text] of a block, when it has one. *)
Definition text_field (block : pyval) : list pyval :=
  match block with
  | VDict d => match lookup "text" d with Some t => [t] | None => [] end
  | _ => []
  end.

Fixpoint strings (vs : list pyval) : list string :=
  match vs with
  | [] => []
  | VStr s :: vs' => s :: strings vs'
  | _ :: vs' => strings vs'
  end.

(** A string is returned as it is; a sequence gives the [text] fields joined
    by line feeds; when neither applies, or the joined text is empty, the
    rendering of the result. *)
Definition extract_text_as_specified (result : Handlers.AgentResult) : string :=
  match Handlers.content result with
  | Some (VStr s) => s
  | Some (VList blocks) =>
      let joined := join nl (strings (flat_map text_field blocks)) in
      if String.eqb joined "" then Handlers.result_str result else joined
  | _ => Handlers.result_str result
  end.

(** A text without white space at either end. *)
Definition no_leading_space (s : string) : bool :=
  match Handlers.space_at s with
  | None => true
  | Some _ => false
  end.

(** No end of the text is a white-space character. *)
Fixpoint no_trailing_space (s : string) : bool :=
  match s with
  | EmptyString => true
  | String _ s' => negb (Handlers.is_space_char s) && no_trailing_space s'
  end.

Definition trimmed (s : string) : bool :=
  no_leading_space s && no_trailing_space s.

(** The identifier of a mention: characters of [[A-Z0-9]]. *)
Fixpoint all_id_chars (s : string) : bool :=
  match s with
  | EmptyString => true
  | String c s' => Handlers.is_id_char c && all_id_chars s'
  end.

(** *** Reading a handler run *)

Definition is_agent_call (c : Handlers.call) : bool :=
  match c with Handlers.AgentCall _ => true | _ => false end.

(** The queries sent to the agent, in order. *)
Fixpoint queries (t : list Handlers.call) : list string :=
  match t with
  | [] => []
  | Handlers.AgentCall q :: t' => q :: queries t'
  | _ :: t' => queries t'
  end.

(** Every post of the run goes to the given channel and thread. *)
Fixpoint posts_go_to (channel thread : string) (t : list Handlers.call) : Prop :=
  match t with
  | [] => True
  | Handlers.ChatPostMessage c th _ :: t' =>
      c = channel /\ th = thread /\ posts_go_to channel thread t'
  | _ :: t' => posts_go_to channel thread t'
  end.

(** [event.get("reaction") in ["question", "grey_question"]] *)
Definition is_question (event : Handlers.ReactionEvent) : bool :=
  Handlers.eqb_option (Handlers.reaction event) "question"
  || Handlers.eqb_option (Handlers.reaction event) "grey_question".

(** [message.get("text", "")] *)
Definition text_or_empty (t : option string) : string :=
  match t with Some s => s | None => "" end.

Definition is_str (v : pyval) : bool :=
  match v with VStr _ => true | _ => false end.

Fixpoint all_space (s : string) : bool :=
  match s with
  | EmptyString => true
  | String c s' => Handlers.is_ascii_space c && all_space s'
  end.

(** No character of the text is ["<"]. *)
Fixpoint no_angle (s : string) : bool :=
  match s with
  | EmptyString => true
  | String c s' => negb (Ascii.eqb c "<") && no_angle s'
  end.

(** The names [calculate_complexity] knows. *)
Definition known_algorithms : list string := map fst Tools.complexity_map.

End Spec.

Import Spec.

(* ================================================================== *)
(** ** Concrete inputs *)

Module Examples.

(** The properties below hold whatever [repr] is; where a closed example
    needs one, it is this rendering, which no example reaches. *)
Definition no_repr (v : pyval) : string := "".

(** The data [[1, 2, 3, 4]]. *)
Definition data_1234 : list float :=
  [ Tools.lit 1; Tools.lit 2; Tools.lit 3; Tools.lit 4 ].

(** 2.5 *)
Definition two_and_a_half : float := Tools.dyadic 5 (-1).

(** The statistics of the one-element list [[inf]]. *)
Definition statistics_of_infinity : pydict :=
  [ ("success", VBool true);
    ("count", VInt 1);
    ("mean", VFloat (S754_infinity false));
    ("median", VFloat (S754_infinity false));
    ("std_dev", VFloat S754_nan);
    ("variance", VFloat S754_nan);
    ("min", VFloat (S754_infinity false));
    ("max", VFloat (S754_infinity false));
    ("range", VFloat S754_nan);
    ("q1", VFloat (S754_infinity false));
    ("q3", VFloat (S754_infinity false));
    ("iqr", VFloat S754_nan) ].

(** A failed tool call, with a key of another shape besides. *)
Definition bad_input : pydict :=
  [ ("success", VBool false); ("error", VStr "bad input"); ("mean", VInt 1) ].

(** A map with both [solution] and [mean]. *)
Definition solution_and_mean : pydict :=
  [ ("success", VBool true);
    ("mean", VFloat two_and_a_half);
    ("solution", VStr "-2, 2");
    ("steps", VList [ VStr "Identify the coefficients: a=1, b=0, c=-4" ]) ].

(** A statistics map with every key, whose mean is not a number. *)
Definition mean_not_a_number : pydict :=
  [ ("success", VBool true);
    ("count", VInt 0);
    ("mean", VStr "n/a");
    ("median", VFloat two_and_a_half);
    ("std_dev", VFloat two_and_a_half);
    ("min", VFloat two_and_a_half);
    ("max", VFloat two_and_a_half);
    ("iqr", VFloat two_and_a_half) ].

(** What [calculate_complexity("dijkstra")] returns. *)
Definition dijkstra : pydict :=
  [ ("success", VBool true);
    ("algorithm", VStr "dijkstra");
    ("complexity",
     VDict [ ("time", VStr "O((V + E) log V)");
             ("space", VStr "O(V)");
             ("description",
              VStr ("Algorithm for finding the shortest paths between nodes " ++
                    "in a graph with non-negative edge weights.")) ]) ].

(** A Slack client whose calls all succeed; the bot is user [UBOT] and the
    channel history holds one message. *)
Definition reliable_client : Handlers.client := {|
  Handlers.reactions_add _ _ _ := ok tt;
  Handlers.chat_postMessage _ _ _ := ok tt;
  Handlers.auth_test := ok "UBOT";
  Handlers.conversations_history _ _ _ _ := ok [ Some "plot x**2" ]
|}.

(** A client on which adding a reaction fails, and posting fails unless the
    text is an error reply. *)
Definition failing_client : Handlers.client := {|
  Handlers.reactions_add _ _ _ := raise (Exception "already_reacted");
  Handlers.chat_postMessage _ _ text :=
    if prefix_of "I encountered an error" text then ok tt
    else raise (Exception "msg_too_long");
  Handlers.auth_test := ok "UBOT";
  Handlers.conversations_history _ _ _ _ := ok [ Some "plot x**2" ]
|}.

(** A result of three blocks, the second without text. *)
Definition three_blocks : Handlers.AgentResult :=
  {| Handlers.content :=
       Some (VList [ VDict [ ("text", VStr "a") ];
                     VDict [ ("other", VInt 1) ];
                     VDict [ ("text", VStr "b") ] ]);
     Handlers.result_str := "AgentResult(...)" |}.

Definition block_agent (query : string) : result Handlers.AgentResult :=
  ok three_blocks.

(** An agent whose answer quotes the result of the plotting tool. *)
Definition plot_payload : string :=
  "{'success': True, 'image_base64': 'iVBORw0KGgoAAAANSUhEUg=='}".

Definition plot_agent (query : string) : result Handlers.AgentResult :=
  ok {| Handlers.content := Some (VStr plot_payload);
        Handlers.result_str := "AgentResult(...)" |}.

(** An agent that raises. *)
Definition broken_agent (query : string) : result Handlers.AgentResult :=
  raise (Exception "model timed out").

(** A result whose only block has an empty text. *)
Definition empty_text_result : Handlers.AgentResult :=
  {| Handlers.content := Some (VList [ VDict [ ("text", VStr "") ] ]);
     Handlers.result_str := "AgentResult(...)" |}.

Definition message (text : string) : Handlers.MessageEvent :=
  {| Handlers.channel := "C024BE91L";
     Handlers.ts := "1700000000.000100";
     Handlers.thread_ts := None;
     Handlers.text := Some text;
     Handlers.bot_id := None |}.

Definition question_reaction : Handlers.ReactionEvent :=
  {| Handlers.user := Some "U123ABC";
     Handlers.reaction := Some "question";
     Handlers.item_channel := "C024BE91L";
     Handlers.item_ts := "1700000000.000100" |}.

(** A question reaction added by the bot itself. *)
Definition own_reaction : Handlers.ReactionEvent :=
  {| Handlers.user := Some "UBOT";
     Handlers.reaction := Some "question";
     Handlers.item_channel := "C024BE91L";
     Handlers.item_ts := "1700000000.000100" |}.

(** A successful map with both [mean] and [complexity]. *)
Definition mean_and_complexity : pydict :=
  [ ("success", VBool true);
    ("complexity", VDict [ ("time", VStr "O(n)"); ("space", VStr "O(1)") ]);
    ("algorithm", VStr "mean");
    ("count", VInt 4);
    ("mean", VFloat two_and_a_half);
    ("median", VFloat two_and_a_half);
    ("std_dev", VFloat two_and_a_half);
    ("min", VFloat two_and_a_half);
    ("max", VFloat two_and_a_half);
    ("iqr", VFloat two_and_a_half) ].

(** U+00A0, the no-break space. *)
Definition no_break_space : string := Handlers.utf8 [194; 160].

(** A mention followed by a no-break space. *)
Definition no_break_mention : string :=
  "<@U123ABC>" ++ no_break_space ++ "solve x**2-4".

End Examples.


(* ================================================================== *)
(** ** Properties of the built-ins *)

Section Strings.

Lemma append_assoc (a b c : string) : (a ++ b) ++ c = a ++ (b ++ c).
Proof. induction a as [|x a IH]; simpl; [reflexivity | now rewrite IH]. Qed.

Lemma append_nil_r (a : string) : a ++ "" = a.
Proof. induction a as [|x a IH]; simpl; [reflexivity | now rewrite IH]. Qed.

Lemma length_append (a b : string) :
  String.length (a ++ b) = (String.length a + String.length b)%nat.
Proof. induction a as [|x a IH]; simpl; [reflexivity | now rewrite IH]. Qed.

End Strings.

Section Results.

Context {A B : Type}.

Lemma bind_ok (m : result A) (k : A -> result B) (b : B) :
  bind m k = inr b -> exists a, m = inr a /\ k a = inr b.
Proof. destruct m as [e|a]; simpl; [discriminate | eauto]. Qed.

End Results.

Section Numerals.

Lemma round_half_even_nearest (num den : Z) :
  0 <= num -> 0 < den -> nearest_even (round_half_even num den) num den.
Proof.
  intros Hnum Hden. unfold nearest_even, round_half_even.
  pose proof (Z.div_mod num den ltac:(lia)) as Hdm.
  pose proof (Z.mod_pos_bound num den Hden) as Hr.
  set (q := num / den) in *. set (r := num mod den) in *.
  destruct (Z.compare_spec (2 * r) den) as [He|Hl|Hg].
  - destruct (Z.even q) eqn:Hq.
    + split; [lia | intros _; exact Hq].
    + split; [lia|]. intros _.
      rewrite Z.even_add, Hq. reflexivity.
  - split; lia.
  - split; lia.
Qed.

(** [scaled] rounds the exact value [m * 2^e * 10^p] of the float. *)
Lemma scaled_nearest (p : nat) (m : positive) (e : Z) :
  nearest_even (scaled p m e)
    (Z.pos m * 2 ^ Z.max 0 e * 10 ^ Z.of_nat p) (2 ^ Z.max 0 (- e)).
Proof.
  unfold scaled. destruct (Z.leb_spec 0 e) as [He|He].
  - rewrite (Z.max_r 0 e), (Z.max_l 0 (- e)) by lia.
    change (2 ^ 0) with 1. unfold nearest_even. split; lia.
  - rewrite (Z.max_l 0 e), (Z.max_r 0 (- e)) by lia.
    change (2 ^ 0) with 1. rewrite Z.mul_1_r.
    apply round_half_even_nearest.
    + pose proof (Z.pow_nonneg 10 (Z.of_nat p)). lia.
    + apply Z.pow_pos_nonneg; lia.
Qed.

Lemma scaled_nonneg (p : nat) (m : positive) (e : Z) : 0 <= scaled p m e.
Proof.
  unfold scaled. pose proof (Z.pow_nonneg 10 (Z.of_nat p) ltac:(lia)) as Ht.
  destruct (Z.leb_spec 0 e) as [He|He].
  - pose proof (Z.pow_nonneg 2 e ltac:(lia)). nia.
  - unfold round_half_even.
    assert (Hd : 0 < 2 ^ (- e)) by (apply Z.pow_pos_nonneg; lia).
    pose proof (Z.div_pos (Z.pos m * 10 ^ Z.of_nat p) (2 ^ (- e)) ltac:(nia) Hd).
    destruct (_ ?= _); [destruct (Z.even _)| |]; lia.
Qed.

Lemma length_digits (k : nat) : forall n, String.length (digits k n) = k.
Proof.
  induction k as [|k IH]; intros n; simpl; [reflexivity|].
  rewrite length_append, IH; simpl; lia.
Qed.

Lemma all_digits_append (a b : string) :
  all_digits (a ++ b) = all_digits a && all_digits b.
Proof.
  induction a as [|c a IH]; simpl; [reflexivity|].
  now rewrite IH, andb_assoc.
Qed.

Lemma digit_cases (d : Z) :
  0 <= d < 10 ->
  is_digit (digit d) = true /\ Z.of_nat (nat_of_ascii (digit d)) - 48 = d.
Proof.
  intros H.
  assert (C : d = 0 \/ d = 1 \/ d = 2 \/ d = 3 \/ d = 4 \/
              d = 5 \/ d = 6 \/ d = 7 \/ d = 8 \/ d = 9) by lia.
  repeat (destruct C as [->|C]; [split; reflexivity|]).
  subst d; split; reflexivity.
Qed.

Lemma all_digits_digits (k : nat) : forall n, all_digits (digits k n) = true.
Proof.
  induction k as [|k IH]; intros n; cbn [digits]; [reflexivity|].
  rewrite all_digits_append, IH; cbn [all_digits andb].
  destruct (digit_cases (n mod 10)) as [-> _]; [|reflexivity].
  apply Z.mod_pos_bound; lia.
Qed.

Lemma decimal_value_from_append (a b : string) :
  forall acc, decimal_value_from acc (a ++ b) =
              decimal_value_from (decimal_value_from acc a) b.
Proof. induction a as [|c a IH]; intros acc; simpl; [reflexivity | apply IH]. Qed.

Lemma decimal_value_from_digits (k : nat) :
  forall n acc, 0 <= n ->
    decimal_value_from acc (digits k n) = acc * 10 ^ Z.of_nat k + n mod 10 ^ Z.of_nat k.
Proof.
  induction k as [|k IH]; intros n acc Hn.
  - simpl. rewrite Z.mod_1_r. lia.
  - cbn [digits]. rewrite decimal_value_from_append, IH
      by (apply Z.div_pos; lia).
    cbn [decimal_value_from].
    destruct (digit_cases (n mod 10)) as [_ ->];
      [apply Z.mod_pos_bound; lia|].
    rewrite Nat2Z.inj_succ, Z.pow_succ_r by lia.
    rewrite (Z.rem_mul_r n 10 (10 ^ Z.of_nat k)) by
      (try lia; apply Z.pow_pos_nonneg; lia).
    lia.
Qed.

(** The digits written after the point read back as the number they were
    made from. *)
Lemma decimal_value_digits (k : nat) (n : Z) :
  0 <= n -> decimal_value (digits k n) = n mod 10 ^ Z.of_nat k.
Proof.
  intros Hn. unfold decimal_value.
  rewrite decimal_value_from_digits by exact Hn. lia.
Qed.

Lemma four_decimals_intro (a frac : string) :
  String.length frac = 4%nat -> all_digits frac = true ->
  four_decimals (a ++ String "." frac) = true.
Proof.
  intros Hl Hd. induction a as [|c a IH]; cbn [append four_decimals].
  - now rewrite Hl, Hd.
  - rewrite IH; apply orb_true_r.
Qed.

Lemma four_decimals_fixed (sign : string) (n : Z) :
  four_decimals (sign ++ fixed 4 n) = true.
Proof.
  unfold fixed. rewrite <- append_assoc.
  apply (four_decimals_intro (sign ++ str_Z (n / 10 ^ Z.of_nat 4)));
    [apply length_digits | apply all_digits_digits].
Qed.

End Numerals.


Section Dictionaries.

Lemma contains_lookup (d : pydict) (k : string) :
  contains d k = true <-> exists v, lookup k d = Some v.
Proof.
  unfold contains; destruct (lookup k d) as [v|]; split; eauto; try discriminate.
  intros [v H]; discriminate.
Qed.

Lemma contains_false (d : pydict) (k : string) :
  contains d k = false <-> lookup k d = None.
Proof. unfold contains; destruct (lookup k d); split; congruence. Qed.

Lemma getitem_some (d : pydict) (k : string) (v : pyval) :
  lookup k d = Some v -> getitem d k = inr v.
Proof. unfold getitem; now intros ->. Qed.

Lemma getitem_none (d : pydict) (k : string) :
  lookup k d = None -> getitem d k = inl (KeyError k).
Proof. unfold getitem; now intros ->. Qed.

Lemma get_some (d : pydict) (k : string) (v dflt : pyval) :
  lookup k d = Some v -> get d k dflt = v.
Proof. unfold get; now intros ->. Qed.

End Dictionaries.

(* ================================================================== *)
(** ** Properties of [parse_tool_response] *)

Import Utils.

Section FormatterProperties.

Variable repr : pyval -> string.

Local Abbreviation str := (Utils.str repr).
Local Abbreviation parse_tool_response := (Utils.parse_tool_response repr).
Local Abbreviation format_solution := (Utils.format_solution repr).
Local Abbreviation format_statistics := (Utils.format_statistics repr).
Local Abbreviation format_complexity := (Utils.format_complexity repr).
Local Abbreviation numbered := (Utils.numbered repr).

(** The dispatch, one lemma per branch. *)

Lemma dispatch_failure (response : pydict) :
  truthy (get response "success" (VBool false)) = false ->
  parse_tool_response response =
  ok ("Error: " ++ str (get response "error" (VStr "Unknown error"))).
Proof. unfold Utils.parse_tool_response; now intros ->. Qed.

Lemma dispatch_solution (response : pydict) :
  truthy (get response "success" (VBool false)) = true ->
  contains response "solution" = true ->
  parse_tool_response response = format_solution response.
Proof. unfold Utils.parse_tool_response; now intros -> ->. Qed.

Lemma dispatch_statistics (response : pydict) :
  truthy (get response "success" (VBool false)) = true ->
  contains response "solution" = false ->
  contains response "mean" = true ->
  parse_tool_response response = format_statistics response.
Proof. unfold Utils.parse_tool_response; now intros -> -> ->. Qed.

Lemma dispatch_complexity (response : pydict) :
  truthy (get response "success" (VBool false)) = true ->
  contains response "solution" = false ->
  contains response "mean" = false ->
  contains response "complexity" = true ->
  parse_tool_response response = format_complexity response.
Proof. unfold Utils.parse_tool_response; now intros -> -> -> ->. Qed.

Lemma dispatch_default (response : pydict) :
  truthy (get response "success" (VBool false)) = true ->
  contains response "solution" = false ->
  contains response "mean" = false ->
  contains response "complexity" = false ->
  parse_tool_response response = ok (str (VDict response)).
Proof. unfold Utils.parse_tool_response; now intros -> -> -> ->. Qed.

(** The numbered list only ever extends the text it is given. *)
Lemma numbered_extends (steps : list pyval) :
  forall i acc, exists rest, numbered i steps acc = acc ++ rest.
Proof.
  induction steps as [|step steps IH]; intros i acc; cbn [Utils.numbered].
  - exists ""; now rewrite append_nil_r.
  - destruct (IH (S i) (acc ++ str_nat i ++ ". " ++ str step ++ nl)) as [rest ->].
    eexists; rewrite append_assoc; reflexivity.
Qed.

Lemma format_solution_shape (response : pydict) (solution : pyval) (out : string) :
  lookup "solution" response = Some solution ->
  format_solution response = inr out ->
  exists rest, out = "*Solution:* " ++ str solution ++ nl ++ nl ++ rest.
Proof.
  intros Hsol; unfold Utils.format_solution.
  rewrite (getitem_some _ _ _ Hsol); cbn [bind].
  destruct (contains response "steps" && truthy (get response "steps" VNone)).
  - destruct (iterate (get response "steps" VNone)) as [e|steps];
      cbn [bind Py.ok]; [discriminate|].
    intros [= <-].
    match goal with
    | |- context [Utils.numbered repr ?i ?st ?acc] =>
        destruct (numbered_extends st i acc) as [rest ->]
    end.
    exists ("*Step-by-step solution:*" ++ nl ++ rest).
    change ((("*Solution:* " ++ str solution ++ nl ++ nl) ++
             "*Step-by-step solution:*" ++ nl) ++ rest =
            "*Solution:* " ++ str solution ++ nl ++ nl ++
            "*Step-by-step solution:*" ++ nl ++ rest).
    now rewrite !append_assoc.
  - intros [= <-]; exists ""; reflexivity.
Qed.

Lemma format_statistics_shape (response : pydict) (out : string) :
  format_statistics response = inr out ->
  exists rest, out = "*Statistical Analysis:*" ++ rest.
Proof.
  unfold Utils.format_statistics; intros H.
  repeat (apply bind_ok in H; destruct H as [? [_ H]]).
  injection H as <-; eexists; reflexivity.
Qed.

(** [format(v, ".4f")] returns exactly on numbers. *)
Lemma format_spec_f_number (p : nat) (v : pyval) :
  is_number v = true <-> exists out, format_spec_f p v = inr out.
Proof.
  destruct v; simpl; unfold float_of_int; split;
    try discriminate; try (intros [out H]; discriminate H);
    try (intros _; eexists; reflexivity); try reflexivity.
  - destruct (binary_normalize 53 1024 z 0 false); try discriminate;
      intros _; eexists; reflexivity.
  - destruct (binary_normalize 53 1024 z 0 false); try reflexivity;
      intros [out H]; discriminate H.
Qed.

Lemma iterate_iterable (v : pyval) :
  is_iterable v = true <-> exists items, Utils.iterate v = inr items.
Proof.
  destruct v; simpl; split; try discriminate;
    try (intros [items H]; discriminate H);
    try (intros _; eexists; reflexivity); reflexivity.
Qed.

Lemma number_at_format (response : pydict) (k : string) :
  number_at response k = true <->
  exists out, bind (getitem response k) (fun v => format_spec_f 4 v) = inr out.
Proof.
  unfold number_at, getitem.
  destruct (lookup k response) as [v|]; cbn [bind Py.ok Py.raise].
  - apply format_spec_f_number.
  - split; [discriminate | intros [out H]; discriminate H].
Qed.

Lemma format_solution_returns (response : pydict) :
  contains response "solution" = true ->
  well_formed_solution response = true <->
  exists out, format_solution response = inr out.
Proof.
  intros Hc; apply contains_lookup in Hc; destruct Hc as [solution Hsol].
  unfold well_formed_solution, Utils.format_solution, contains, get.
  rewrite (getitem_some _ _ _ Hsol); cbn [bind].
  destruct (lookup "steps" response) as [steps|]; cbn [andb].
  - destruct (truthy steps); cbn [negb orb].
    + rewrite iterate_iterable.
      destruct (Utils.iterate steps) as [e|items]; cbn [bind]; split.
      * intros [items H]; discriminate H.
      * intros [out H]; discriminate H.
      * intros _; eexists; reflexivity.
      * intros _; eexists; reflexivity.
    + split; [intros _; eexists; reflexivity | reflexivity].
  - split; [intros _; eexists; reflexivity | reflexivity].
Qed.

Lemma format_statistics_returns (response : pydict) :
  well_formed_statistics response = true <->
  exists out, format_statistics response = inr out.
Proof.
  unfold well_formed_statistics, float_statistics, Utils.format_statistics.
  cbn [forallb]. rewrite !andb_true_iff, !number_at_format.
  unfold contains.
  destruct (lookup "count" response) as [count|] eqn:Hcount.
  2: { rewrite (getitem_none _ _ Hcount).
       split; [intros [H _]; discriminate H | intros [out H]; discriminate H]. }
  rewrite (getitem_some _ _ _ Hcount); cbn [bind].
  split.
  - intros [_ [[mean ->] [[median ->] [[std_dev ->] [[min ->] [[max ->] [[iqr ->] _]]]]]]].
    cbn [bind]; eexists; reflexivity.
  - intros [out H].
    repeat match type of H with
           | bind ?m _ = inr _ =>
               let a := fresh "a" in
               destruct m as [?|a]; cbn [bind] in H; [discriminate H|]
           end.
    repeat split; eexists; reflexivity.
Qed.

Lemma format_time_returns (time : option pyval) :
  well_formed_time time = true <->
  exists out, Utils.format_time repr time = inr out.
Proof.
  unfold well_formed_time, Utils.format_time, contains, getitem.
  destruct time as [[| | | | |l|t]|];
    try (split; [intros _; eexists; reflexivity | reflexivity]).
  destruct (lookup "best" t); cbn [bind Py.ok Py.raise andb];
    [|split; [discriminate | intros [out H]; discriminate H]].
  destruct (lookup "average" t); cbn [bind Py.ok Py.raise andb];
    [|split; [discriminate | intros [out H]; discriminate H]].
  destruct (lookup "worst" t); cbn [bind Py.ok Py.raise andb];
    [|split; [discriminate | intros [out H]; discriminate H]].
  split; [intros _; eexists; reflexivity | reflexivity].
Qed.

Lemma format_complexity_returns (response : pydict) :
  contains response "complexity" = true ->
  well_formed_complexity response = true <->
  exists out, format_complexity response = inr out.
Proof.
  intros Hc; apply contains_lookup in Hc; destruct Hc as [complexity Hcx].
  unfold well_formed_complexity, Utils.format_complexity, contains, getitem.
  rewrite Hcx; cbn [bind Py.ok].
  destruct (lookup "algorithm" response) as [algorithm|];
    cbn [bind Py.ok Py.raise andb];
    [|split; [discriminate | intros [out H]; discriminate H]].
  destruct complexity as [| | | | | |c]; cbn [get_method bind Py.raise Py.ok];
    try (split; [discriminate | intros [out H]; discriminate H]).
  rewrite format_time_returns.
  destruct (Utils.format_time repr (lookup "time" c)) as [e|lines]; cbn [bind].
  - split; intros [out H]; discriminate H.
  - split; intros _; eexists; reflexivity.
Qed.

(** [parse_tool_response] returns exactly on the well-formed maps. *)
Lemma parse_tool_response_returns (response : pydict) :
  well_formed response = true <->
  exists out, parse_tool_response response = inr out.
Proof.
  unfold well_formed, Utils.parse_tool_response.
  destruct (truthy (get response "success" (VBool false))); cbn [negb].
  2: { split; [intros _; eexists; reflexivity | reflexivity]. }
  destruct (contains response "solution") eqn:Hsol.
  { now apply format_solution_returns. }
  destruct (contains response "mean") eqn:Hmean.
  { apply format_statistics_returns. }
  destruct (contains response "complexity") eqn:Hcx.
  { now apply format_complexity_returns. }
  split; [intros _; eexists; reflexivity | reflexivity].
Qed.

(** C4: on a map whose [success] is [False], [parse_tool_response] returns
    ["Error: "] followed by the map's [error] value, or
    ["Error: Unknown error"] when the key [error] is absent, whatever other
    keys the map has; with [error] the string ["bad input"] the result is
    exactly ["Error: bad input"]. *)
Theorem parse_tool_response_failure (response : pydict) :
  lookup "success" response = Some (VBool false) ->
  (forall msg, lookup "error" response = Some (VStr msg) ->
     parse_tool_response response = ok ("Error: " ++ msg)) /\
  (forall v, lookup "error" response = Some v ->
     parse_tool_response response = ok ("Error: " ++ str v)) /\
  (lookup "error" response = None ->
     parse_tool_response response = ok "Error: Unknown error") /\
  (lookup "error" response = Some (VStr "bad input") ->
     parse_tool_response response = ok "Error: bad input").
Proof.
  intros Hs.
  assert (Hd : forall v, lookup "error" response = Some v ->
                 parse_tool_response response = ok ("Error: " ++ str v)).
  { intros v He. rewrite dispatch_failure.
    - now rewrite (get_some _ _ _ _ He).
    - now rewrite (get_some _ _ _ _ Hs). }
  repeat split.
  - intros msg He; apply (Hd _ He).
  - exact Hd.
  - intros He. rewrite dispatch_failure.
    + unfold get; now rewrite He.
    + now rewrite (get_some _ _ _ _ Hs).
  - intros He; apply (Hd _ He).
Qed.

(** C5: on a successful map that has both the key [solution] and the key
    [mean], [parse_tool_response] takes the solution branch: its output
    starts with the solution header, it is never the output of the
    statistics branch, and it is the header alone, or the header followed
    by the numbered steps. *)
Theorem solution_wins_over_mean (response : pydict) (solution : pyval) :
  truthy (get response "success" (VBool false)) = true ->
  lookup "solution" response = Some solution ->
  contains response "mean" = true ->
  parse_tool_response response = format_solution response /\
  (forall out, parse_tool_response response = inr out ->
     (exists rest, out = "*Solution:* " ++ str solution ++ nl ++ nl ++ rest) /\
     (forall stats, format_statistics response = inr stats -> out <> stats)) /\
  (lookup "steps" response = None ->
     parse_tool_response response = ok ("*Solution:* " ++ str solution ++ nl ++ nl)) /\
  (forall step steps, lookup "steps" response = Some (VList (step :: steps)) ->
     parse_tool_response response =
     ok (numbered 1 (step :: steps)
           (("*Solution:* " ++ str solution ++ nl ++ nl) ++
            "*Step-by-step solution:*" ++ nl))).
Proof.
  intros Hs Hsol _.
  assert (Hd : parse_tool_response response = format_solution response).
  { apply dispatch_solution; [exact Hs|]. apply contains_lookup; eauto. }
  split; [exact Hd|]. rewrite Hd. split; [|split].
  - intros out Hout.
    destruct (format_solution_shape _ _ _ Hsol Hout) as [r1 E1].
    split; [now exists r1|].
    intros stats Hst ->.
    destruct (format_statistics_shape _ _ Hst) as [r2 E2].
    rewrite E2 in E1; discriminate E1.
  - intros Hn. unfold Utils.format_solution.
    rewrite (getitem_some _ _ _ Hsol); cbn [bind].
    apply contains_false in Hn; now rewrite Hn.
  - intros step steps Hl. unfold Utils.format_solution.
    rewrite (getitem_some _ _ _ Hsol); cbn [bind].
    assert (Hc : contains response "steps" = true) by (apply contains_lookup; eauto).
    rewrite Hc, (get_some _ _ _ _ Hl). reflexivity.
Qed.

(** One key of the statistics block: present and a number, or missing. *)
Ltac next_statistic response Hnum k :=
  let v := fresh "v" in
  let E := fresh "E" in
  let out := fresh "out" in
  let Hout := fresh "Hout" in
  destruct (lookup k response) as [v|] eqn:E;
  [ rewrite (getitem_some _ _ _ E); cbn [bind];
    destruct (proj1 (format_spec_f_number 4 v)
                (Hnum k v ltac:(simpl; tauto) E)) as [out Hout];
    rewrite Hout; cbn [bind]
  | exists k; rewrite (getitem_none _ _ E);
    split; [simpl; tauto | split; [assumption | reflexivity]] ].

(** In the statistics branch the first key that is missing raises
    [KeyError], provided the values before it are numbers. *)
Lemma format_statistics_missing (response : pydict) :
  (forall k v, In k float_statistics -> lookup k response = Some v ->
     is_number v = true) ->
  forallb (contains response) ("count" :: float_statistics) = false ->
  exists k, In k ("count" :: float_statistics) /\ lookup k response = None /\
            format_statistics response = inl (KeyError k).
Proof.
  intros Hnum Hmiss. unfold Utils.format_statistics.
  destruct (lookup "count" response) as [count|] eqn:Ecount.
  2: { exists "count". rewrite (getitem_none _ _ Ecount).
       split; [simpl; tauto | split; [assumption | reflexivity]]. }
  rewrite (getitem_some _ _ _ Ecount); cbn [bind].
  next_statistic response Hnum "mean".
  next_statistic response Hnum "median".
  next_statistic response Hnum "std_dev".
  next_statistic response Hnum "min".
  next_statistic response Hnum "max".
  next_statistic response Hnum "iqr".
  exfalso. cbn [forallb float_statistics] in Hmiss. unfold contains in Hmiss.
  rewrite Ecount, E, E0, E1, E2, E3, E4 in Hmiss. discriminate Hmiss.
Qed.

Lemma format_time_missing (t : pydict) :
  well_formed_time (Some (VDict t)) = false ->
  exists k, In k ["best"; "average"; "worst"] /\ lookup k t = None /\
            Utils.format_time repr (Some (VDict t)) = inl (KeyError k).
Proof.
  unfold well_formed_time, Utils.format_time, contains; intros H.
  destruct (lookup "best" t) eqn:Eb.
  2: { exists "best"; rewrite (getitem_none _ _ Eb).
       split; [simpl; tauto | split; [assumption | reflexivity]]. }
  destruct (lookup "average" t) eqn:Ea.
  2: { exists "average".
       rewrite (getitem_some _ _ _ Eb), (getitem_none _ _ Ea).
       split; [simpl; tauto | split; [assumption | reflexivity]]. }
  destruct (lookup "worst" t) eqn:Ew.
  2: { exists "worst".
       rewrite (getitem_some _ _ _ Eb), (getitem_some _ _ _ Ea), (getitem_none _ _ Ew).
       split; [simpl; tauto | split; [assumption | reflexivity]]. }
  discriminate H.
Qed.

(** C10 (amended): [parse_tool_response] returns exactly on the maps that
    are well formed: besides the keys the branch reads, the rendered
    statistics must be numbers, [complexity] a dict and [steps], when it is
    there and not empty, iterable.  Otherwise it raises; in particular a
    statistics map lacking one of [count], [median], [std_dev], [min],
    [max], [iqr] raises [KeyError], a complexity map without [algorithm]
    raises [KeyError], and so does one whose [time] is a dict lacking
    [best], [average] or [worst]. *)
Theorem parse_tool_response_total (response : pydict) :
  (well_formed response = true <->
   exists out, parse_tool_response response = inr out) /\
  (well_formed response = false <->
   exists e, parse_tool_response response = inl e) /\
  (truthy (get response "success" (VBool false)) = true ->
   contains response "solution" = false ->
   contains response "mean" = true ->
   (forall k v, In k float_statistics -> lookup k response = Some v ->
      is_number v = true) ->
   forall k, In k ["count"; "median"; "std_dev"; "min"; "max"; "iqr"] ->
   lookup k response = None ->
   exists k', lookup k' response = None /\
              parse_tool_response response = inl (KeyError k')) /\
  (truthy (get response "success" (VBool false)) = true ->
   contains response "solution" = false ->
   contains response "mean" = false ->
   contains response "complexity" = true ->
   lookup "algorithm" response = None ->
   parse_tool_response response = inl (KeyError "algorithm")) /\
  (truthy (get response "success" (VBool false)) = true ->
   contains response "solution" = false ->
   contains response "mean" = false ->
   forall algorithm c t,
   lookup "algorithm" response = Some algorithm ->
   lookup "complexity" response = Some (VDict c) ->
   lookup "time" c = Some (VDict t) ->
   forall k, In k ["best"; "average"; "worst"] -> lookup k t = None ->
   exists k', lookup k' t = None /\
              parse_tool_response response = inl (KeyError k')).
Proof.
  pose proof (parse_tool_response_returns response) as Hret.
  split; [exact Hret|]. split; [|split; [|split]].
  - destruct (parse_tool_response response) as [e|out] eqn:E.
    + split; [eauto|]. intros _.
      destruct (well_formed response); [|reflexivity].
      destruct (proj1 Hret eq_refl) as [out H]; discriminate H.
    + rewrite (proj2 Hret (ex_intro _ out eq_refl)).
      split; [discriminate | intros [e H]; discriminate H].
  - intros Hs Hsol Hmean Hnum k Hk Hnone.
    rewrite (dispatch_statistics _ Hs Hsol Hmean).
    destruct (format_statistics_missing response Hnum) as [k' [_ [H1 H2]]].
    + apply not_true_is_false; intros Hall.
      rewrite forallb_forall in Hall.
      assert (Hin : In k ("count" :: float_statistics))
        by (simpl in Hk |- *; tauto).
      specialize (Hall k Hin). apply contains_lookup in Hall.
      destruct Hall as [v Hv]; congruence.
    + eauto.
  - intros Hs Hsol Hmean Hcx Halg.
    rewrite (dispatch_complexity _ Hs Hsol Hmean Hcx).
    apply contains_lookup in Hcx; destruct Hcx as [c Hc].
    unfold Utils.format_complexity.
    now rewrite (getitem_some _ _ _ Hc), (getitem_none _ _ Halg).
  - intros Hs Hsol Hmean algorithm c t Halg Hc Ht k Hk Hnone.
    rewrite (dispatch_complexity _ Hs Hsol Hmean)
      by (apply contains_lookup; eauto).
    destruct (format_time_missing t) as [k' [_ [H1 H2]]].
    + unfold well_formed_time, contains.
      simpl in Hk. destruct Hk as [<-|[<-|[<-|[]]]]; rewrite Hnone;
        rewrite ?andb_false_r; reflexivity.
    + exists k'; split; [exact H1|].
      unfold Utils.format_complexity.
      rewrite (getitem_some _ _ _ Hc), (getitem_some _ _ _ Halg).
      cbn [bind get_method Py.ok]. rewrite Ht, H2. reflexivity.
Qed.

(** The statistics block, when the rendered values are floats. *)
Lemma format_statistics_floats
  (response : pydict) (count : pyval) (mean median std_dev min max iqr : float) :
  lookup "count" response = Some count ->
  lookup "mean" response = Some (VFloat mean) ->
  lookup "median" response = Some (VFloat median) ->
  lookup "std_dev" response = Some (VFloat std_dev) ->
  lookup "min" response = Some (VFloat min) ->
  lookup "max" response = Some (VFloat max) ->
  lookup "iqr" response = Some (VFloat iqr) ->
  format_statistics response =
  ok (statistics_block (str count) (format_f 4 mean) (format_f 4 median)
        (format_f 4 std_dev) (format_f 4 min) (format_f 4 max) (format_f 4 iqr)).
Proof.
  intros Hc H1 H2 H3 H4 H5 H6. unfold Utils.format_statistics.
  rewrite (getitem_some _ _ _ Hc), (getitem_some _ _ _ H1),
    (getitem_some _ _ _ H2), (getitem_some _ _ _ H3), (getitem_some _ _ _ H4),
    (getitem_some _ _ _ H5), (getitem_some _ _ _ H6).
  reflexivity.
Qed.

(** A finite float is written with its sign, the integer part and four
    digits of the nearest multiple of 1/10000, ties to even. *)
Lemma format_f_finite (x : float) :
  is_finite x = true ->
  four_decimals (format_f 4 x) = true /\
  exists (negative : bool) (n : Z),
    0 <= n /\
    format_f 4 x =
    sign_str negative ++ str_Z (n / 10000) ++ "." ++ digits 4 (n mod 10000) /\
    decimal_value (digits 4 (n mod 10000)) = n mod 10000 /\
    match x with
    | S754_finite s m e =>
        negative = s /\
        nearest_even n (Z.pos m * 2 ^ Z.max 0 e * 10000) (2 ^ Z.max 0 (- e))
    | _ => n = 0
    end.
Proof.
  destruct x as [s|s| |s m e]; try discriminate; intros _; cbn [format_f].
  - split; [apply four_decimals_fixed|].
    exists s, 0. repeat split; reflexivity || lia.
  - split; [apply four_decimals_fixed|].
    exists s, (scaled 4 m e).
    pose proof (scaled_nonneg 4 m e) as Hn.
    split; [exact Hn|]. split; [reflexivity|]. split.
    + rewrite decimal_value_digits by (apply Z.mod_pos_bound; lia).
      change (10 ^ Z.of_nat 4) with 10000.
      apply Z.mod_mod; lia.
    + split; [reflexivity|]. exact (scaled_nearest 4 m e).
Qed.

(** C6 (amended): in the statistics branch every finite float among mean,
    median, standard deviation, min, max and iqr is written with exactly
    four decimals, its exact value rounded to the nearest multiple of
    1/10000, ties to even; for the data [[1, 2, 3, 4]], whose mean and
    median are 2.5, both are written [2.5000]. *)
Theorem statistics_four_decimals :
  (forall x, is_finite x = true ->
     four_decimals (format_f 4 x) = true /\
     exists (negative : bool) (n : Z),
       0 <= n /\
       format_f 4 x =
       sign_str negative ++ str_Z (n / 10000) ++ "." ++ digits 4 (n mod 10000) /\
       decimal_value (digits 4 (n mod 10000)) = n mod 10000 /\
       match x with
       | S754_finite s m e =>
           negative = s /\
           nearest_even n (Z.pos m * 2 ^ Z.max 0 e * 10000) (2 ^ Z.max 0 (- e))
       | _ => n = 0
       end) /\
  (forall response count mean median std_dev min max iqr,
     truthy (get response "success" (VBool false)) = true ->
     contains response "solution" = false ->
     lookup "count" response = Some count ->
     lookup "mean" response = Some (VFloat mean) ->
     lookup "median" response = Some (VFloat median) ->
     lookup "std_dev" response = Some (VFloat std_dev) ->
     lookup "min" response = Some (VFloat min) ->
     lookup "max" response = Some (VFloat max) ->
     lookup "iqr" response = Some (VFloat iqr) ->
     parse_tool_response response =
     ok (statistics_block (str count) (format_f 4 mean) (format_f 4 median)
           (format_f 4 std_dev) (format_f 4 min) (format_f 4 max)
           (format_f 4 iqr))) /\
  (forall np q1 q2 q3 sd v lo hi,
     Tools.percentile np Examples.data_1234
       [Tools.lit 25; Tools.lit 50; Tools.lit 75] = ok [q1; q2; q3] ->
     Tools.mean np Examples.data_1234 = ok Examples.two_and_a_half ->
     Tools.median np Examples.data_1234 = ok Examples.two_and_a_half ->
     Tools.std np Examples.data_1234 = ok sd ->
     Tools.var np Examples.data_1234 = ok v ->
     Tools.min np Examples.data_1234 = ok lo ->
     Tools.max np Examples.data_1234 = ok hi ->
     parse_tool_response (Tools.calculate_statistics np Examples.data_1234) =
     ok (statistics_block "4" "2.5000" "2.5000" (format_f 4 sd)
           (format_f 4 lo) (format_f 4 hi)
           (format_f 4 (SFsub 53 1024 q3 q1)))).
Proof.
  split; [exact format_f_finite|]. split.
  - intros response count mean median std_dev min max iqr
      Hs Hsol Hc H1 H2 H3 H4 H5 H6.
    rewrite (dispatch_statistics _ Hs Hsol)
      by (apply contains_lookup; eauto).
    now apply format_statistics_floats.
  - intros np q1 q2 q3 sd v lo hi Hp Hmean Hmedian Hstd Hvar Hmin Hmax.
    unfold Tools.calculate_statistics, Tools.calculate_statistics_body.
    rewrite Hp, Hmean, Hmedian, Hstd, Hvar, Hmin, Hmax.
    cbn [bind Py.ok Tools.index nth_error].
    rewrite dispatch_statistics by reflexivity.
    erewrite format_statistics_floats by reflexivity.
    reflexivity.
Qed.

End FormatterProperties.

(** *** The formatter on concrete maps *)

Section FormatterExamples.

Import Examples.

Lemma parse_tool_response_failure_witness :
  lookup "success" bad_input = Some (VBool false) /\
  lookup "error" bad_input = Some (VStr "bad input") /\
  contains bad_input "mean" = true /\
  Utils.parse_tool_response no_repr bad_input = ok "Error: bad input".
Proof.
  split; [reflexivity|]. split; [reflexivity|]. split; [reflexivity|].
  apply (proj2 (proj2 (proj2
           (parse_tool_response_failure no_repr bad_input eq_refl)))).
  reflexivity.
Defined.

Lemma solution_wins_over_mean_witness :
  truthy (get solution_and_mean "success" (VBool false)) = true /\
  lookup "solution" solution_and_mean = Some (VStr "-2, 2") /\
  contains solution_and_mean "mean" = true /\
  Utils.parse_tool_response no_repr solution_and_mean =
  ok ("*Solution:* -2, 2" ++ nl ++ nl ++
      "*Step-by-step solution:*" ++ nl ++
      "1. Identify the coefficients: a=1, b=0, c=-4" ++ nl).
Proof.
  split; [reflexivity|]. split; [reflexivity|]. split; [reflexivity|].
  apply (proj2 (proj2 (proj2
           (solution_wins_over_mean no_repr solution_and_mean (VStr "-2, 2")
              eq_refl eq_refl eq_refl)))
           (VStr "Identify the coefficients: a=1, b=0, c=-4") []).
  reflexivity.
Defined.

(** C6, as stated, fails on a float that is not finite: the mean of the
    list [[inf]] is written [inf], with no decimals at all. *)
Lemma statistics_of_infinity_has_no_decimals :
  lookup "mean" statistics_of_infinity = Some (VFloat (S754_infinity false)) /\
  four_decimals (format_f 4 (S754_infinity false)) = false /\
  Utils.parse_tool_response no_repr statistics_of_infinity =
  ok (statistics_block "1" "inf" "inf" "nan" "inf" "inf" "nan").
Proof. repeat split. Qed.

Lemma statistics_four_decimals_witness :
  Tools.mean Tools.numpy_reference data_1234 = ok two_and_a_half /\
  Tools.median Tools.numpy_reference data_1234 = ok two_and_a_half /\
  Utils.parse_tool_response no_repr
    (Tools.calculate_statistics Tools.numpy_reference data_1234) =
  ok (statistics_block "4" "2.5000" "2.5000" "1.1180" "1.0000" "4.0000" "1.5000").
Proof.
  split; [reflexivity|]. split; [reflexivity|].
  exact (proj2 (proj2 (statistics_four_decimals no_repr))
           Tools.numpy_reference _ _ _ _ _ _ _
           eq_refl eq_refl eq_refl eq_refl eq_refl eq_refl eq_refl).
Defined.

(** C10, as stated, fails: every key the statistics branch reads is
    there, and the formatter raises, because the mean is a string. *)
Lemma keys_present_is_not_enough :
  keys_present mean_not_a_number = true /\
  Utils.parse_tool_response no_repr mean_not_a_number =
  inl (ValueError "Unknown format code 'f' for object of type 'str'").
Proof. split; reflexivity. Qed.

Lemma parse_tool_response_total_witness :
  well_formed dijkstra = true /\
  exists out, Utils.parse_tool_response no_repr dijkstra = inr out.
Proof.
  split; [reflexivity|].
  apply (proj1 (proj1 (parse_tool_response_total no_repr dijkstra))).
  reflexivity.
Defined.

End FormatterExamples.

(* ================================================================== *)
(** ** Properties of the regular expressions *)

Import Handlers.

Section Patterns.

Lemma strip_prefix_sound (p : string) :
  forall s rest, strip_prefix p s = Some rest -> s = p ++ rest.
Proof.
  induction p as [|a p IH]; intros s rest; cbn [strip_prefix].
  - now intros [= ->].
  - destruct s as [|b s]; [discriminate|].
    destruct (Ascii.eqb_spec a b) as [->|]; [|discriminate].
    intros H. cbn [append]. now rewrite (IH _ _ H).
Qed.

Lemma strip_prefix_complete (p rest : string) :
  strip_prefix p (p ++ rest) = Some rest.
Proof.
  induction p as [|a p IH]; cbn [append strip_prefix]; [reflexivity|].
  now rewrite Ascii.eqb_refl.
Qed.

Lemma first_prefix_sound (ps : list string) (s rest : string) :
  first_prefix ps s = Some rest -> exists p, In p ps /\ s = p ++ rest.
Proof.
  induction ps as [|p ps IH]; cbn [first_prefix]; [discriminate|].
  destruct (strip_prefix p s) as [r|] eqn:E.
  - intros [= ->]. exists p. split; [now left|].
    exact (strip_prefix_sound _ _ _ E).
  - intros H. destruct (IH H) as [q [Hin Hq]]. exists q. split; [now right|].
    exact Hq.
Qed.

(** Some member of [ps] starts the text: a first one is found. *)
Lemma first_prefix_found (ps : list string) (p rest : string) :
  In p ps -> exists rest', first_prefix ps (p ++ rest) = Some rest'.
Proof.
  induction ps as [|q ps IH]; intros Hin; [destruct Hin|].
  cbn [first_prefix].
  destruct (strip_prefix q (p ++ rest)) as [r|] eqn:E; [eauto|].
  destruct Hin as [->|Hin]; [|exact (IH Hin)].
  rewrite strip_prefix_complete in E. discriminate E.
Qed.

Lemma match_char_sound (a : ascii) (s rest : string) :
  match_char a s = Some rest -> exists c, s = c ++ rest /\ same_letter a c.
Proof.
  destruct s as [|b s]; [discriminate|]. unfold match_char.
  destruct (Ascii.eqb_spec (ascii_lower a) (ascii_lower b)) as [E|_].
  - intros [= ->]. exists (String b EmptyString).
    split; [reflexivity|]. left. exists b. now split.
  - intros H. destruct (first_prefix_sound _ _ _ H) as [p [Hin Hp]].
    exists p. split; [exact Hp | now right].
Qed.

Lemma match_char_complete (a : ascii) (c rest : string) :
  same_letter a c -> match_char a (c ++ rest) = Some rest.
Proof.
  intros [[b [-> Hb]] | Hin].
  - cbn [append match_char]. now rewrite Hb, Ascii.eqb_refl.
  - unfold match_char. unfold fold_equivalents in Hin |- *.
    destruct (Ascii.eqb_spec (ascii_lower a) "i") as [E|_];
      [rewrite E; destruct Hin as [<-|[<-|[]]]; reflexivity|].
    destruct (Ascii.eqb_spec (ascii_lower a) "s") as [E|_];
      [rewrite E; destruct Hin as [<-|[]]; reflexivity|].
    destruct (Ascii.eqb_spec (ascii_lower a) "k") as [E|_];
      [rewrite E; destruct Hin as [<-|[]]; reflexivity|].
    destruct Hin.
Qed.

(** A literal matches at the start of a text exactly when the text starts
    with a spelling of it. *)
Lemma match_here_spells (p : string) :
  forall s, match_here p s = true <->
            exists w rest, s = w ++ rest /\ spells p w.
Proof.
  induction p as [|a p IH]; intros s; cbn [match_here spells].
  - split; [intros _; now exists EmptyString, s | reflexivity].
  - split.
    + destruct (match_char a s) as [r|] eqn:E; [|discriminate].
      intros H. apply IH in H. destruct H as [w [rest [-> Hw]]].
      destruct (match_char_sound _ _ _ E) as [c [-> Hc]].
      exists (c ++ w), rest. split; [now rewrite append_assoc|].
      now exists c, w.
    + intros [w [rest [-> [c [w' [-> [Hc Hw]]]]]]].
      rewrite append_assoc, (match_char_complete a c _ Hc).
      apply IH. now exists w', rest.
Qed.

Lemma match_alternatives_spec (alts : list string) (s : string) :
  match_alternatives alts s = true <->
  exists p w rest, In p alts /\ spells p w /\ s = w ++ rest.
Proof.
  unfold match_alternatives. rewrite existsb_exists. split.
  - intros [p [Hin H]]. apply match_here_spells in H.
    destruct H as [w [rest [Hs Hw]]]. now exists p, w, rest.
  - intros [p [w [rest [Hin [Hw Hs]]]]]. exists p. split; [exact Hin|].
    apply match_here_spells. now exists w, rest.
Qed.

(** [MATH_PATTERN.search] succeeds exactly when a keyword occurs in the
    text, up to the case folding of [re.IGNORECASE]. *)
Lemma search_mentions (alts : list string) (s : string) :
  search alts s = true <-> mentions alts s.
Proof.
  unfold mentions, occurs_in. induction s as [|c s IH].
  - cbn [search]. rewrite orb_false_r, match_alternatives_spec.
    split.
    + intros [p [w [rest [Hin [Hw Hs]]]]]. exists p, w.
      split; [exact Hin|]. split; [exact Hw|]. now exists EmptyString, rest.
    + intros [p [w [Hin [Hw [before [after Hs]]]]]]. exists p, w, after.
      split; [exact Hin|]. split; [exact Hw|].
      destruct before; [exact Hs | discriminate Hs].
  - cbn [search]. rewrite orb_true_iff, match_alternatives_spec, IH.
    split.
    + intros [[p [w [rest [Hin [Hw Hs]]]]]
             | [p [w [Hin [Hw [before [after Hs]]]]]]];
        exists p, w; (split; [exact Hin|]); (split; [exact Hw|]).
      * now exists EmptyString, rest.
      * exists (String c before), after. cbn [append]. now rewrite Hs.
    + intros [p [w [Hin [Hw [before [after Hs]]]]]].
      destruct before as [|b before].
      * left. now exists p, w, after.
      * right. exists p, w. split; [exact Hin|]. split; [exact Hw|].
        cbn [append] in Hs. injection Hs as _ Hs. now exists before, after.
Qed.

Lemma search_false (alts : list string) (s : string) :
  search alts s = false <-> ~ mentions alts s.
Proof.
  rewrite <- search_mentions. destruct (search alts s); split; congruence.
Qed.

(** The pattern and the vocabulary of the specification have the same
    keywords, except that the pattern has ["big o"] for ["big-O"]. *)
Lemma MATH_PATTERN_keywords (p : string) :
  In p MATH_PATTERN <->
  In p (map (fun k => if String.eqb k "big-O" then "big o" else k)
            spec_vocabulary).
Proof.
  assert (Hincl : forall a b : list string,
            forallb (fun x => existsb (String.eqb x) b) a = true ->
            forall x, In x a -> In x b).
  { intros a b H x Hx. rewrite forallb_forall in H.
    specialize (H x Hx). rewrite existsb_exists in H.
    destruct H as [y [Hy Hxy]]. apply String.eqb_eq in Hxy. now subst. }
  split; apply Hincl; reflexivity.
Qed.

Lemma id_run_identifier (id : string) (tail : string) :
  all_id_chars id = true ->
  id_run (id ++ String ">" tail) = (String.length id, String ">" tail).
Proof.
  intros H. induction id as [|c id IH]; [reflexivity|].
  cbn [all_id_chars] in H. apply andb_prop in H. destruct H as [Hc Hid].
  cbn [append id_run String.length]. now rewrite Hc, (IH Hid).
Qed.

Lemma mention_at_token (id tail : string) :
  id <> "" -> all_id_chars id = true ->
  mention_at ("<@" ++ id ++ String ">" tail) = Some (String.length id + 3)%nat.
Proof.
  intros Hne Hid. cbn [append mention_at].
  rewrite (id_run_identifier id tail Hid).
  destruct id as [|c id]; [congruence|].
  cbn [String.length]. f_equal. lia.
Qed.

Lemma sub_mentions_skip (a b : string) :
  sub_mentions (String.length a) (a ++ b) = sub_mentions 0 b.
Proof. induction a as [|c a IH]; [reflexivity | exact IH]. Qed.

Lemma sub_mentions_match (c : ascii) (s' : string) (n : nat) :
  mention_at (String c s') = Some n ->
  sub_mentions 0 (String c s') = sub_mentions (Nat.pred n) s'.
Proof. intros H. cbn [sub_mentions]. now rewrite H. Qed.

(** A mention token at the start of the text is removed. *)
Lemma sub_mentions_token (id tail : string) :
  id <> "" -> all_id_chars id = true ->
  sub_mentions 0 ("<@" ++ id ++ String ">" tail) = sub_mentions 0 tail.
Proof.
  intros Hne Hid.
  change ("<@" ++ id ++ String ">" tail)
    with (String "<" (String "@" (id ++ String ">" tail))).
  rewrite (sub_mentions_match "<" _ (String.length id + 3)).
  - etransitivity; [|apply (sub_mentions_skip (String "@" (id ++ ">")) tail)].
    f_equal.
    + cbn [String.length]. rewrite length_append. cbn [String.length]. lia.
    + cbn [append]. now rewrite append_assoc.
  - exact (mention_at_token id tail Hne Hid).
Qed.

Lemma unicode_spaces_not_empty (p : string) :
  In p unicode_spaces -> p <> EmptyString.
Proof.
  unfold unicode_spaces. cbn [In].
  intros H; repeat (destruct H as [<-|H]; [discriminate|]). destruct H.
Qed.

Lemma space_at_sound (s rest : string) :
  space_at s = Some rest ->
  exists w, w <> EmptyString /\ s = w ++ rest.
Proof.
  destruct s as [|c s]; [discriminate|]. unfold space_at.
  destruct (is_ascii_space c).
  - intros [= ->]. exists (String c EmptyString). now split.
  - intros H. destruct (first_prefix_sound _ _ _ H) as [p [Hin Hp]].
    exists p. split; [exact (unicode_spaces_not_empty p Hin) | exact Hp].
Qed.

Lemma space_at_shorter (s rest : string) :
  space_at s = Some rest -> (String.length rest < String.length s)%nat.
Proof.
  intros H. destruct (space_at_sound _ _ H) as [w [Hw ->]].
  rewrite length_append. destruct w; [congruence | cbn [String.length]; lia].
Qed.

(** A text that starts with a white-space character still does when it is
    extended. *)
Lemma space_at_extended (s rest t : string) :
  space_at s = Some rest -> exists rest', space_at (s ++ t) = Some rest'.
Proof.
  destruct s as [|c s]; [discriminate|]. unfold space_at.
  cbn [append]. destruct (is_ascii_space c); [eauto|].
  intros H. destruct (first_prefix_sound _ _ _ H) as [p [Hin Hp]].
  change (String c (s ++ t)) with (String c s ++ t).
  rewrite Hp, append_assoc. exact (first_prefix_found _ _ _ Hin).
Qed.

Lemma lstrip_upto_no_leading_space (n : nat) :
  forall s, (String.length s <= n)%nat -> space_at (lstrip_upto n s) = None.
Proof.
  induction n as [|n IH]; intros s Hs; cbn [lstrip_upto].
  - destruct s; [reflexivity | cbn [String.length] in Hs; lia].
  - destruct (space_at s) as [rest|] eqn:E; [|exact E].
    apply IH. pose proof (space_at_shorter _ _ E). lia.
Qed.

Lemma lstrip_no_leading_space (s : string) : no_leading_space (lstrip s) = true.
Proof.
  unfold no_leading_space, lstrip.
  now rewrite lstrip_upto_no_leading_space.
Qed.

Lemma rstrip_no_trailing_space (s : string) : no_trailing_space (rstrip s) = true.
Proof.
  induction s as [|c s IH]; [reflexivity|].
  cbn [rstrip]. cbv zeta.
  destruct (is_space_char (String c (rstrip s))) eqn:E; [reflexivity|].
  cbn [no_trailing_space]. now rewrite E, IH.
Qed.

(** [rstrip] keeps a beginning of the text. *)
Lemma rstrip_beginning (s : string) : exists t, s = rstrip s ++ t.
Proof.
  induction s as [|c s [t IH]]; [now exists EmptyString|].
  cbn [rstrip]. cbv zeta.
  destruct (is_space_char (String c (rstrip s))).
  - now exists (String c s).
  - exists t. cbn [append]. now rewrite <- IH.
Qed.

Lemma rstrip_keeps_no_leading_space (s : string) :
  no_leading_space s = true -> no_leading_space (rstrip s) = true.
Proof.
  unfold no_leading_space. intros H.
  destruct (space_at (rstrip s)) as [rest|] eqn:E; [|reflexivity].
  destruct (rstrip_beginning s) as [t Ht].
  destruct (space_at_extended _ _ t E) as [rest' E'].
  rewrite <- Ht in E'. rewrite E' in H. discriminate H.
Qed.

(** [strip] leaves no white space at either end. *)
Lemma strip_trimmed (s : string) : trimmed (strip s) = true.
Proof.
  unfold trimmed, strip.
  rewrite rstrip_keeps_no_leading_space by apply lstrip_no_leading_space.
  now rewrite rstrip_no_trailing_space.
Qed.

End Patterns.

(* ================================================================== *)
(** ** Properties of the event handlers *)

(** *** Text extraction *)

Section TextExtraction.

Lemma collect_text_fields (blocks : list pyval) :
  collect_text blocks = flat_map text_field blocks.
Proof.
  induction blocks as [|block blocks IH]; [reflexivity|].
  destruct block as [| | | | | |d]; cbn [collect_text flat_map text_field app];
    try exact IH.
  destruct (lookup "text" d); cbn [app]; now rewrite IH.
Qed.

Lemma join_items_strings (ss : list string) :
  forall i, join_items i (map VStr ss) = ok ss.
Proof.
  induction ss as [|s ss IH]; intros i; [reflexivity|].
  cbn [map join_items]. now rewrite IH.
Qed.

(** C3 (amended): [extract_text_from_result] returns a string content as
    it is; for a sequence of blocks it joins with line feeds the [text]
    fields (strings) of exactly the blocks that have one, in order, so that
    [[{text:"a"},{other:1},{text:"b"}]] gives ["a\nb"]; it falls back to
    [str(result)] when the content has neither shape or no block has a
    [text] field.  A [text] that is the empty string still counts: the
    joined text is returned even when it is empty. *)
Theorem extract_text_from_result_cases (result : AgentResult) :
  (forall s, content result = Some (VStr s) ->
     extract_text_from_result result = ok s) /\
  (forall blocks ss,
     content result = Some (VList blocks) ->
     flat_map text_field blocks = map VStr ss -> ss <> [] ->
     extract_text_from_result result = ok (join nl ss)) /\
  (forall blocks,
     content result = Some (VList blocks) ->
     flat_map text_field blocks = [] ->
     extract_text_from_result result = ok (result_str result)) /\
  (match content result with
   | Some (VStr _) | Some (VList _) => False
   | _ => True
   end ->
   extract_text_from_result result = ok (result_str result)) /\
  (content result =
     Some (VList [ VDict [ ("text", VStr "a") ];
                   VDict [ ("other", VInt 1) ];
                   VDict [ ("text", VStr "b") ] ]) ->
   extract_text_from_result result = ok ("a" ++ nl ++ "b")) /\
  (content result = Some (VList [ VDict [ ("text", VStr "") ] ]) ->
   extract_text_from_result result = ok "").
Proof.
  unfold extract_text_from_result.
  split; [|split; [|split; [|split; [|split]]]].
  - now intros s ->.
  - intros blocks ss -> Hfields Hne.
    rewrite collect_text_fields, Hfields, join_items_strings.
    destruct ss; [congruence | reflexivity].
  - intros blocks -> Hfields.
    now rewrite collect_text_fields, Hfields.
  - destruct (content result) as [[| | | | | |]|]; tauto || reflexivity.
  - now intros ->.
  - now intros ->.
Qed.

End TextExtraction.

(** Unfolding a handler run down to the outcomes of its calls. *)
Ltac reduce_io := cbv beta iota zeta.

Ltac run_handler h :=
  unfold h, trace, outcome, post, logger_error, io_bind, try_except, perform,
    pure, ret, Py.ok, Py.raise;
  reduce_io.

Section HandlerProperties.

Variable app_client : client.
Variable agent : string -> result AgentResult.

(** C1 (amended): a plain message in which no keyword of [MATH_PATTERN]
    occurs, ignoring case, is ignored: the handler returns at once, having
    called neither the Slack client nor the agent.  The keywords are those
    of the specification with ["big o"] in the place of ["big-O"]. *)
Theorem unmatched_message_is_ignored (event : MessageEvent) :
  ~ mentions MATH_PATTERN (text_of event) ->
  handle_message_events app_client agent event = ([], inr tt) /\
  client_calls (trace (handle_message_events app_client agent event)) = [] /\
  (forall p, In p MATH_PATTERN <->
     In p (map (fun k => if String.eqb k "big-O" then "big o" else k)
               spec_vocabulary)).
Proof.
  intros H. apply search_false in H.
  assert (E : handle_message_events app_client agent event = ([], inr tt)).
  { unfold handle_message_events. rewrite H. now destruct (is_bot event). }
  rewrite E. repeat split; apply MATH_PATTERN_keywords.
Qed.

(** *** The mention handler *)

(** C7: [handle_app_mentions] first calls the agent, with the event text
    from which the mention tokens are removed and the surrounding white
    space trimmed; a token at the start of the text is removed; for the
    text ["<@U123ABC> solve x**2-4"] the query is ["solve x**2-4"]. *)
Theorem mention_query (event : MessageEvent) :
  (exists rest,
     trace (handle_app_mentions app_client agent event) =
     AgentCall (strip (sub_mentions 0 (text_of event))) :: rest) /\
  trimmed (strip (sub_mentions 0 (text_of event))) = true /\
  (forall id tail,
     id <> "" -> all_id_chars id = true ->
     text event = Some ("<@" ++ id ++ ">" ++ tail) ->
     strip (sub_mentions 0 (text_of event)) = strip (sub_mentions 0 tail)) /\
  (text event = Some "<@U123ABC> solve x**2-4" ->
   exists rest,
     trace (handle_app_mentions app_client agent event) =
     AgentCall "solve x**2-4" :: rest).
Proof.
  assert (Hfirst : forall q, strip (sub_mentions 0 (text_of event)) = q ->
            exists rest,
              trace (handle_app_mentions app_client agent event) =
              AgentCall q :: rest).
  { intros q <-. run_handler handle_app_mentions.
    destruct (agent (strip (sub_mentions 0 (text_of event)))) as [e|r];
      [|reduce_io; destruct (extract_text_from_result r) as [e|t];
        [|reduce_io; destruct (chat_postMessage app_client _ _ t)]];
      eexists; reflexivity. }
  split; [now apply Hfirst|]. split; [apply strip_trimmed|]. split.
  - intros id tail Hne Hid Htext. unfold text_of. rewrite Htext.
    change ("<@" ++ id ++ ">" ++ tail) with ("<@" ++ id ++ String ">" tail).
    now rewrite (sub_mentions_token id tail Hne Hid).
  - intros Htext. apply Hfirst. unfold text_of. now rewrite Htext.
Qed.

(** *** The message handler *)

(** C2 (amended): for a plain message that is not from a bot and matches
    [MATH_PATTERN], the calls on the Slack client are one [reactions_add]
    followed by a [chat_postMessage], whether or not the reaction could be
    added.  That post is the only one unless it fails itself: when the
    post of the agent's answer fails, one more [chat_postMessage], carrying
    the error reply, follows it. *)
Theorem message_react_then_post (event : MessageEvent) :
  is_bot event = false ->
  search MATH_PATTERN (text_of event) = true ->
  exists reply rest,
    client_calls (trace (handle_message_events app_client agent event)) =
    ReactionsAdd (channel event) (ts event) "brain"
    :: ChatPostMessage (channel event) (thread_of event) reply :: rest /\
    (rest = [] \/
     exists e,
       chat_postMessage app_client (channel event) (thread_of event) reply
       = inl e /\
       rest = [ ChatPostMessage (channel event) (thread_of event)
                  (error_reply e) ]) /\
    (forall u,
       chat_postMessage app_client (channel event) (thread_of event) reply
       = inr u ->
       rest = []) /\
    (forall r t e,
       agent (text_of event) = inr r ->
       extract_text_from_result r = inr t ->
       chat_postMessage app_client (channel event) (thread_of event) reply
       = inl e ->
       rest = [ ChatPostMessage (channel event) (thread_of event)
                  (error_reply e) ]).
Proof.
  intros Hbot Hmatch.
  unfold handle_message_events. cbv zeta. rewrite Hbot, Hmatch.
  run_handler handle_message_events.
  destruct (reactions_add app_client _ _ _) as [er|[]]; reduce_io;
    (destruct (agent (text_of event)) as [e|r]; reduce_io;
     [|destruct (extract_text_from_result r) as [e|t] eqn:Htext; reduce_io]).
  1, 4:
    exists (error_reply e), [];
    (split; [reflexivity | split; [now left | split; [reflexivity|]]]);
    intros r t e0 Hagent; discriminate Hagent.
  1, 3:
    exists (error_reply e), [];
    (split; [reflexivity | split; [now left | split; [reflexivity|]]]);
    intros r0 t e0 Hagent Ht; injection Hagent as <-;
    rewrite Htext in Ht; discriminate Ht.
  all: set (reply := if substring_of "image_base64" t then placeholder else t);
    destruct (chat_postMessage app_client (channel event) (thread_of event)
                reply) as [ep|u] eqn:Hpost; reduce_io.
  1, 3:
    exists reply, [ ChatPostMessage (channel event) (thread_of event)
                      (error_reply ep) ];
    (split; [reflexivity|]); split; [right; exists ep; now split|]; split;
    [ intros u Hu; rewrite Hpost in Hu; discriminate Hu
    | intros r0 t0 e0 _ _ Hp; rewrite Hpost in Hp; injection Hp as <-;
      reflexivity ].
  all: exists reply, [];
    (split; [reflexivity | split; [now left | split; [reflexivity|]]]);
    intros r0 t0 e0 _ _ Hp; rewrite Hpost in Hp; discriminate Hp.
Qed.

(** On the message path a response that holds the marker [image_base64]
    is replaced by the placeholder. *)
Lemma message_handler_hides_image
  (event : MessageEvent) (r : AgentResult) (t : string) :
  is_bot event = false ->
  search MATH_PATTERN (text_of event) = true ->
  agent (text_of event) = inr r ->
  extract_text_from_result r = inr t ->
  substring_of "image_base64" t = true ->
  exists rest,
    posted (trace (handle_message_events app_client agent event)) =
    placeholder :: rest.
Proof.
  intros Hbot Hmatch Hagent Htext Himage.
  unfold handle_message_events. cbv zeta. rewrite Hbot, Hmatch.
  run_handler handle_message_events.
  rewrite Hagent; reduce_io. rewrite Htext; reduce_io. rewrite Himage.
  destruct (reactions_add app_client _ _ _) as [er|[]]; reduce_io;
    destruct (chat_postMessage app_client _ _ placeholder) as [ep|u];
    reduce_io; eexists; reflexivity.
Qed.

(** *** Failures of the agent stage *)

(** C9: when the agent, or the extraction of its text, raises [e], the
    message handler and the mention handler log the error and post the
    reply "I encountered an error while processing your request: " followed
    by [str(e)], in the thread of the event; [handle_reaction_added] logs
    the error, posts nothing and returns. *)
Theorem error_reply_only_for_messages_and_mentions (e : exn) :
  (forall event,
     is_bot event = false ->
     search MATH_PATTERN (text_of event) = true ->
     agent_stage_raises agent (text_of event) e ->
     client_calls (trace (handle_message_events app_client agent event)) =
     [ ReactionsAdd (channel event) (ts event) "brain";
       ChatPostMessage (channel event) (thread_of event)
         ("I encountered an error while processing your request: " ++ str_exn e) ]
     /\
     In (LoggerError ("Error processing message: " ++ str_exn e))
        (trace (handle_message_events app_client agent event))) /\
  (forall event,
     agent_stage_raises agent (strip (sub_mentions 0 (text_of event))) e ->
     trace (handle_app_mentions app_client agent event) =
     [ AgentCall (strip (sub_mentions 0 (text_of event)));
       LoggerError ("Error processing mention: " ++ str_exn e);
       ChatPostMessage (channel event) (thread_of event)
         ("I encountered an error while processing your request: " ++ str_exn e) ]) /\
  (forall event user_id first others,
     auth_test app_client = inr user_id ->
     eqb_option (user event) user_id = false ->
     eqb_option (reaction event) "question"
     || eqb_option (reaction event) "grey_question" = true ->
     conversations_history app_client (item_channel event) (item_ts event) true 1
     = inr (first :: others) ->
     agent_stage_raises agent (match first with Some t => t | None => "" end) e ->
     handle_reaction_added app_client agent event =
     ([ AuthTest;
        ConversationsHistory (item_channel event) (item_ts event) true 1;
        AgentCall (match first with Some t => t | None => "" end);
        LoggerError ("Error processing reaction: " ++ str_exn e) ],
      inr tt) /\
     posted (trace (handle_reaction_added app_client agent event)) = []).
Proof.
  split; [|split].
  - intros event Hbot Hmatch Hraise.
    unfold handle_message_events. cbv zeta. rewrite Hbot, Hmatch.
    run_handler handle_message_events.
    destruct Hraise as [Ha | [r [Ha Hx]]]; rewrite Ha; reduce_io;
      try (rewrite Hx; reduce_io);
      destruct (reactions_add app_client _ _ _) as [er|[]]; reduce_io;
      (split; [reflexivity | cbn [fst app In]; tauto]).
  - intros event Hraise. run_handler handle_app_mentions.
    destruct Hraise as [Ha | [r [Ha Hx]]]; rewrite Ha; reduce_io;
      try (rewrite Hx; reduce_io); reflexivity.
  - intros event user_id first others Hauth Huser Hreaction Hhistory Hraise.
    assert (E : handle_reaction_added app_client agent event =
                ([ AuthTest;
                   ConversationsHistory (item_channel event) (item_ts event) true 1;
                   AgentCall (match first with Some t => t | None => "" end);
                   LoggerError ("Error processing reaction: " ++ str_exn e) ],
                 inr tt)).
    { unfold handle_reaction_added.
      unfold io_bind at 1. unfold perform at 1. rewrite Hauth. reduce_io.
      rewrite Huser, Hreaction.
      run_handler handle_reaction_added. rewrite Hhistory. reduce_io.
      destruct Hraise as [Ha | [r [Ha Hx]]]; rewrite Ha; reduce_io;
        try (rewrite Hx; reduce_io); reflexivity. }
    rewrite E. split; reflexivity.
Qed.

End HandlerProperties.

(** *** The handlers on concrete events *)

Section HandlerExamples.

Import Examples.

(** C1, as stated, fails: no keyword of the specification's vocabulary
    occurs in the text, and the handler reacts, asks the agent and posts. *)
Lemma big_o_message_is_answered :
  search spec_vocabulary (text_of (message "Big O of bubble sort?")) = false /\
  handle_message_events reliable_client block_agent
    (message "Big O of bubble sort?") =
  ([ ReactionsAdd "C024BE91L" "1700000000.000100" "brain";
     AgentCall "Big O of bubble sort?";
     ChatPostMessage "C024BE91L" "1700000000.000100" ("a" ++ nl ++ "b") ],
   inr tt).
Proof. split; reflexivity. Qed.

Lemma unmatched_message_is_ignored_witness :
  search MATH_PATTERN (text_of (message "lunch at noon?")) = false /\
  handle_message_events reliable_client block_agent (message "lunch at noon?")
  = ([], inr tt).
Proof.
  split; [reflexivity|].
  apply (unmatched_message_is_ignored reliable_client block_agent
           (message "lunch at noon?")).
  apply search_false. reflexivity.
Defined.

(** C2, as stated, fails: the first post fails, and a second post, the
    error reply, follows it. *)
Lemma failed_post_is_followed_by_error_reply :
  is_bot (message "solve x**2 - 4") = false /\
  search MATH_PATTERN (text_of (message "solve x**2 - 4")) = true /\
  client_calls
    (trace (handle_message_events failing_client block_agent
              (message "solve x**2 - 4"))) =
  [ ReactionsAdd "C024BE91L" "1700000000.000100" "brain";
    ChatPostMessage "C024BE91L" "1700000000.000100" ("a" ++ nl ++ "b");
    ChatPostMessage "C024BE91L" "1700000000.000100"
      "I encountered an error while processing your request: msg_too_long" ].
Proof. repeat split. Qed.

Lemma message_react_then_post_witness :
  is_bot (message "solve x**2 - 4") = false /\
  search MATH_PATTERN (text_of (message "solve x**2 - 4")) = true /\
  exists reply rest,
    client_calls
      (trace (handle_message_events reliable_client block_agent
                (message "solve x**2 - 4"))) =
    ReactionsAdd "C024BE91L" "1700000000.000100" "brain"
    :: ChatPostMessage "C024BE91L" "1700000000.000100" reply :: rest /\
    (rest = [] \/
     exists e,
       chat_postMessage reliable_client "C024BE91L" "1700000000.000100" reply
       = inl e /\
       rest = [ ChatPostMessage "C024BE91L" "1700000000.000100"
                  (error_reply e) ]) /\
    (forall u,
       chat_postMessage reliable_client "C024BE91L" "1700000000.000100" reply
       = inr u ->
       rest = []) /\
    (forall r t e,
       block_agent "solve x**2 - 4" = inr r ->
       extract_text_from_result r = inr t ->
       chat_postMessage reliable_client "C024BE91L" "1700000000.000100" reply
       = inl e ->
       rest = [ ChatPostMessage "C024BE91L" "1700000000.000100"
                  (error_reply e) ]).
Proof.
  split; [reflexivity|]. split; [reflexivity|].
  exact (message_react_then_post reliable_client block_agent
           (message "solve x**2 - 4") eq_refl eq_refl).
Defined.

(** C3, as stated, fails: the only text is empty, so the joined text is
    empty, and it is returned; the specification asks for the rendering of
    the result. *)
Lemma empty_text_is_returned :
  extract_text_from_result empty_text_result = ok "" /\
  extract_text_as_specified empty_text_result = "AgentResult(...)".
Proof. split; reflexivity. Qed.

Lemma extract_text_from_result_cases_witness :
  content three_blocks =
    Some (VList [ VDict [ ("text", VStr "a") ];
                  VDict [ ("other", VInt 1) ];
                  VDict [ ("text", VStr "b") ] ]) /\
  extract_text_from_result three_blocks = ok ("a" ++ nl ++ "b").
Proof.
  split; [reflexivity|].
  apply (proj1 (proj2 (proj2 (proj2 (proj2
           (extract_text_from_result_cases three_blocks)))))).
  reflexivity.
Defined.

Lemma mention_query_witness :
  text (message "<@U123ABC> solve x**2-4") = Some "<@U123ABC> solve x**2-4" /\
  exists rest,
    trace (handle_app_mentions reliable_client block_agent
             (message "<@U123ABC> solve x**2-4")) =
    AgentCall "solve x**2-4" :: rest.
Proof.
  split; [reflexivity|].
  apply (proj2 (proj2 (proj2
           (mention_query reliable_client block_agent
              (message "<@U123ABC> solve x**2-4"))))).
  reflexivity.
Defined.

(** C8 on the code: the agent's text holds the marker [image_base64].  The
    message handler posts the placeholder; the mention handler and the
    reaction handler post the text as it is, payload included. *)
Theorem image_payload_is_posted_on_mention :
  substring_of "image_base64" plot_payload = true /\
  posted (trace (handle_message_events reliable_client plot_agent
                   (message "plot x**2"))) = [ placeholder ] /\
  handle_app_mentions reliable_client plot_agent
    (message "<@U123ABC> plot x**2") =
  ([ AgentCall "plot x**2";
     ChatPostMessage "C024BE91L" "1700000000.000100" plot_payload ],
   inr tt) /\
  handle_reaction_added reliable_client plot_agent question_reaction =
  ([ AuthTest;
     ConversationsHistory "C024BE91L" "1700000000.000100" true 1;
     AgentCall "plot x**2";
     ChatPostMessage "C024BE91L" "1700000000.000100" plot_payload ],
   inr tt).
Proof. repeat split. Qed.

Lemma error_reply_only_for_messages_and_mentions_witness :
  agent_stage_raises broken_agent "solve x**2 - 4" (Exception "model timed out") /\
  trace (handle_app_mentions reliable_client broken_agent
           (message "<@U123ABC> solve x**2 - 4")) =
  [ AgentCall "solve x**2 - 4";
    LoggerError "Error processing mention: model timed out";
    ChatPostMessage "C024BE91L" "1700000000.000100"
      "I encountered an error while processing your request: model timed out" ].
Proof.
  split; [now left|].
  apply (proj1 (proj2
           (error_reply_only_for_messages_and_mentions reliable_client
              broken_agent (Exception "model timed out")))
           (message "<@U123ABC> solve x**2 - 4")).
  now left.
Defined.

End HandlerExamples.

(* ================================================================== *)
(** ** Further properties of the event handlers *)

(** Case analysis on the outcome of every call of a handler run. *)
Ltac split_run :=
  repeat (reduce_io;
          match goal with
          | |- context [match ?x with inl _ => _ | inr _ => _ end] =>
              destruct x eqn:?
          | |- context [match ?x with [] => _ | _ :: _ => _ end] =>
              destruct x eqn:?
          | |- context [if ?b then _ else _] => destruct b eqn:?
          end).

Section HandlerRuns.

Variable app_client : client.
Variable agent : string -> result AgentResult.

(** X1: the message handler calls nobody exactly when the message comes
    from a bot or its text does not match [MATH_PATTERN]; a bot message is
    ignored even when it matches. *)
Theorem message_handler_gate (event : MessageEvent) :
  trace (handle_message_events app_client agent event) = [] <->
  is_bot event = true \/ search MATH_PATTERN (text_of event) = false.
Proof.
  unfold handle_message_events. cbv zeta.
  destruct (is_bot event); [split; auto|].
  destruct (search MATH_PATTERN (text_of event));
    [|split; [now right | reflexivity]].
  split; [|intros [H|H]; discriminate H].
  run_handler handle_message_events. split_run;
    cbn [fst app]; intros H; discriminate H.
Qed.

(** X2: the reaction handler stops after the identity lookup when the
    reaction comes from the bot itself or is not a question mark; it stops
    after the history lookup when no message is found; and it calls the
    agent only for a question reaction of another user on a message that
    the lookup returned, with the text of that message. *)
Theorem reaction_handler_gate (event : ReactionEvent) :
  (forall user_id,
     auth_test app_client = inr user_id ->
     eqb_option (user event) user_id = true \/ is_question event = false ->
     handle_reaction_added app_client agent event = ([ AuthTest ], inr tt)) /\
  (forall user_id,
     auth_test app_client = inr user_id ->
     eqb_option (user event) user_id = false ->
     is_question event = true ->
     conversations_history app_client (item_channel event) (item_ts event) true 1
     = inr [] ->
     handle_reaction_added app_client agent event =
     ([ AuthTest;
        ConversationsHistory (item_channel event) (item_ts event) true 1 ],
      inr tt)) /\
  (forall query,
     In query (queries (trace (handle_reaction_added app_client agent event))) ->
     exists user_id first others,
       auth_test app_client = inr user_id /\
       eqb_option (user event) user_id = false /\
       is_question event = true /\
       conversations_history app_client (item_channel event) (item_ts event)
         true 1 = inr (first :: others) /\
       query = text_or_empty first).
Proof.
  unfold is_question. split; [|split].
  - intros user_id Hauth Hskip. unfold handle_reaction_added.
    unfold io_bind at 1. unfold perform at 1. rewrite Hauth. reduce_io.
    destruct (eqb_option (user event) user_id); [reflexivity|].
    destruct Hskip as [H|H]; [discriminate H | now rewrite H].
  - intros user_id Hauth Huser Hq Hhistory. unfold handle_reaction_added.
    unfold io_bind at 1. unfold perform at 1. rewrite Hauth. reduce_io.
    rewrite Huser, Hq.
    run_handler handle_reaction_added. now rewrite Hhistory.
  - intros query. run_handler handle_reaction_added.
    destruct (auth_test app_client) as [e|user_id] eqn:Hauth; reduce_io;
      [intros []|].
    destruct (eqb_option (user event) user_id) eqn:Huser; [intros []|].
    destruct (eqb_option (reaction event) "question"
              || eqb_option (reaction event) "grey_question") eqn:Hq;
      [|intros []].
    destruct (conversations_history app_client _ _ true 1)
      as [e|[|first others]] eqn:Hhistory; reduce_io;
      [intros [] | intros [] |].
    intros Hin. exists user_id, first, others.
    split; [reflexivity|]. split; [exact Huser|].
    split; [reflexivity|]. split; [reflexivity|].
    revert Hin. unfold text_or_empty.
    split_run; cbn [fst app queries In]; intros [H|[]]; now symmetry.
Qed.

(** X3: the reaction handler raises exactly when the identity lookup
    raises, with the same exception: a failure of the history lookup, of
    the agent, of the extraction or of the post is logged and swallowed. *)
Theorem reaction_handler_raises_only_on_auth_test
  (event : ReactionEvent) (e : exn) :
  outcome (handle_reaction_added app_client agent event) = inl e <->
  auth_test app_client = inl e.
Proof.
  run_handler handle_reaction_added.
  destruct (auth_test app_client) as [e0|user_id]; reduce_io;
    [cbn [snd]; split; intros [= ->]; reflexivity|].
  split_run; cbn [snd]; split; intros H; discriminate H.
Qed.

(** X4: the message handler and the mention handler raise only when
    posting the error reply raises, with that exception; when error
    replies can be posted, both return. *)
Theorem handlers_raise_only_from_the_error_reply (event : MessageEvent) :
  (forall e,
     outcome (handle_message_events app_client agent event) = inl e \/
     outcome (handle_app_mentions app_client agent event) = inl e ->
     exists e0,
       chat_postMessage app_client (channel event) (thread_of event)
         (error_reply e0) = inl e) /\
  ((forall e0,
      chat_postMessage app_client (channel event) (thread_of event)
        (error_reply e0) = inr tt) ->
   outcome (handle_message_events app_client agent event) = inr tt /\
   outcome (handle_app_mentions app_client agent event) = inr tt).
Proof.
  assert (Hraise : forall e,
            outcome (handle_message_events app_client agent event) = inl e \/
            outcome (handle_app_mentions app_client agent event) = inl e ->
            exists e0,
              chat_postMessage app_client (channel event) (thread_of event)
                (error_reply e0) = inl e).
  { intros e [H|H]; revert H.
    - run_handler handle_message_events. split_run; cbn [snd]; intros H;
        first [discriminate H | eexists; exact H].
    - run_handler handle_app_mentions. split_run; cbn [snd]; intros H;
        first [discriminate H | eexists; exact H]. }
  split; [exact Hraise|]. intros Hpost. split.
  - destruct (outcome (handle_message_events app_client agent event))
      as [e|[]] eqn:E; [|reflexivity].
    destruct (Hraise e (or_introl eq_refl)) as [e0 H].
    rewrite Hpost in H; discriminate H.
  - destruct (outcome (handle_app_mentions app_client agent event))
      as [e|[]] eqn:E; [|reflexivity].
    destruct (Hraise e (or_intror eq_refl)) as [e0 H].
    rewrite Hpost in H; discriminate H.
Qed.

(** X5: whatever the collaborators do, every post of the message handler
    and of the mention handler goes to the channel of the event, in the
    thread [thread_ts] when the event has one and otherwise [ts]; every
    post of the reaction handler goes to the channel of the item, in the
    thread of the item. *)
Theorem posts_stay_in_the_thread :
  (forall event,
     posts_go_to (channel event) (thread_of event)
       (trace (handle_message_events app_client agent event)) /\
     posts_go_to (channel event) (thread_of event)
       (trace (handle_app_mentions app_client agent event))) /\
  (forall event,
     posts_go_to (item_channel event) (item_ts event)
       (trace (handle_reaction_added app_client agent event))).
Proof.
  split; [intros event; split | intros event].
  - run_handler handle_message_events. split_run;
      cbn [fst app posts_go_to]; repeat split.
  - run_handler handle_app_mentions. split_run;
      cbn [fst app posts_go_to]; repeat split.
  - run_handler handle_reaction_added. split_run;
      cbn [fst app posts_go_to]; repeat split.
Qed.

(** X6: per event the agent is called at most once: by the message
    handler with the text as it came, by the mention handler always and
    exactly once, by the reaction handler at most once.  The message and
    the mention handler post at most twice, the mention handler at least
    once, the reaction handler at most once. *)
Theorem calls_per_event :
  (forall event,
     (queries (trace (handle_message_events app_client agent event)) = [] \/
      queries (trace (handle_message_events app_client agent event))
      = [ text_of event ]) /\
     (List.length
        (posted (trace (handle_message_events app_client agent event)))
      <= 2)%nat) /\
  (forall event,
     queries (trace (handle_app_mentions app_client agent event))
     = [ strip (sub_mentions 0 (text_of event)) ] /\
     (1 <= List.length
             (posted (trace (handle_app_mentions app_client agent event)))
      <= 2)%nat) /\
  (forall event,
     (List.length
        (queries (trace (handle_reaction_added app_client agent event)))
      <= 1)%nat /\
     (List.length
        (posted (trace (handle_reaction_added app_client agent event)))
      <= 1)%nat).
Proof.
  split; [|split]; intros event.
  - run_handler handle_message_events. split_run;
      cbn [fst app queries posted List.length]; split; auto; lia.
  - run_handler handle_app_mentions. split_run;
      cbn [fst app queries posted List.length]; split; auto; lia.
  - run_handler handle_reaction_added. split_run;
      cbn [fst app queries posted List.length]; split; lia.
Qed.

End HandlerRuns.

(* ================================================================== *)
(** ** Further properties of text extraction and of the patterns *)

Section TextAndPatterns.

Lemma join_items_raises (parts : list pyval) :
  forall i,
    (exists e, join_items i parts = inl e) <->
    existsb (fun v => negb (is_str v)) parts = true.
Proof.
  induction parts as [|v parts IH]; intros i.
  - split; [intros [e H]; discriminate H | discriminate].
  - destruct v; cbn [join_items existsb is_str negb orb];
      try (split; [reflexivity | intros _; eexists; reflexivity]).
    rewrite <- (IH (S i)).
    destruct (join_items (S i) parts) as [e|ss]; split.
    + intros _; now exists e.
    + intros _; now exists e.
    + intros [e H]; discriminate H.
    + intros [e H]; discriminate H.
Qed.

Lemma join_items_type_error (parts : list pyval) :
  forall i e, join_items i parts = inl e -> exists msg, e = TypeError msg.
Proof.
  induction parts as [|v parts IH]; intros i e; [discriminate|].
  destruct v; cbn [join_items]; try (intros [= <-]; eexists; reflexivity).
  destruct (join_items (S i) parts) as [e'|ss] eqn:E; [|discriminate].
  intros [= <-]. exact (IH _ _ E).
Qed.

(** X7: [extract_text_from_result] raises exactly when the content is a
    sequence in which the [text] of some block is not a string, and then
    the exception is a [TypeError]; on every other result it returns. *)
Theorem extract_text_raises (result : AgentResult) :
  (forall e, extract_text_from_result result = inl e ->
     exists msg, e = TypeError msg) /\
  ((exists e, extract_text_from_result result = inl e) <->
   exists blocks v,
     content result = Some (VList blocks) /\
     In v (flat_map text_field blocks) /\ is_str v = false).
Proof.
  unfold extract_text_from_result.
  destruct (content result) as [[| | | | |blocks|]|];
    try (split; [intros e H; discriminate H|];
         split; [intros [e H]; discriminate H
                | intros [blocks [v [H _]]]; discriminate H]).
  rewrite collect_text_fields.
  set (parts := flat_map text_field blocks).
  assert (Hparts : (exists e, join_items 0 parts = inl e) <->
                   exists v, In v parts /\ is_str v = false).
  { rewrite join_items_raises, existsb_exists.
    split; intros [v [Hin Hv]]; exists v; (split; [exact Hin|]);
      now destruct (is_str v). }
  destruct parts as [|p parts'] eqn:Eparts.
  - split; [intros e H; discriminate H|].
    split; [intros [e H]; discriminate H|].
    intros [blocks' [v [Hc [Hin _]]]]. injection Hc as <-.
    fold parts in Hin. rewrite Eparts in Hin. destruct Hin.
  - rewrite <- Eparts in *.
    destruct (join_items 0 parts) as [e|ss] eqn:E.
    + split; [intros e' [= <-]; exact (join_items_type_error _ _ _ E)|].
      split; [intros _|intros _; now exists e].
      destruct (proj1 Hparts (ex_intro _ e eq_refl)) as [v Hv].
      exists blocks, v. split; [reflexivity | exact Hv].
    + split; [intros e H; discriminate H|].
      split; [intros [e H]; discriminate H|].
      intros [blocks' [v [Hc Hv]]]. injection Hc as <-.
      destruct (proj2 Hparts (ex_intro _ v Hv)) as [e H]; discriminate H.
Qed.

Lemma lower_idempotent (c : ascii) :
  ascii_lower (ascii_lower c) = ascii_lower c.
Proof. destruct c as [[] [] [] [] [] [] [] []]; reflexivity. Qed.

(** Lower-casing the text does not touch the bytes of [p]. *)
Lemma strip_prefix_lower (p : string) :
  Forall (fun a => forall b, Ascii.eqb a (ascii_lower b) = Ascii.eqb a b)
         (list_ascii_of_string p) ->
  forall s, strip_prefix p (lower_string s)
            = option_map lower_string (strip_prefix p s).
Proof.
  induction p as [|a p IH]; intros H s; [reflexivity|].
  cbn [list_ascii_of_string] in H. inversion H as [|? ? Ha Hp]; subst.
  destruct s as [|b s]; [reflexivity|].
  cbn [lower_string strip_prefix]. rewrite Ha.
  destruct (Ascii.eqb a b); [exact (IH Hp s) | reflexivity].
Qed.

Lemma first_prefix_lower (ps : list string) :
  Forall (fun p =>
            Forall (fun a => forall b,
                      Ascii.eqb a (ascii_lower b) = Ascii.eqb a b)
                   (list_ascii_of_string p)) ps ->
  forall s, first_prefix ps (lower_string s)
            = option_map lower_string (first_prefix ps s).
Proof.
  induction ps as [|p ps IH]; intros H s; [reflexivity|].
  inversion H as [|? ? Hp Hps]; subst. cbn [first_prefix].
  rewrite (strip_prefix_lower p Hp).
  destruct (strip_prefix p s); [reflexivity | exact (IH Hps s)].
Qed.

Lemma fold_equivalents_lower (lo : ascii) :
  Forall (fun p =>
            Forall (fun a => forall b,
                      Ascii.eqb a (ascii_lower b) = Ascii.eqb a b)
                   (list_ascii_of_string p))
         (fold_equivalents lo).
Proof.
  unfold fold_equivalents.
  destruct (Ascii.eqb lo "i"); [|destruct (Ascii.eqb lo "s");
                                  [|destruct (Ascii.eqb lo "k")]];
    cbn [utf8 map string_of_list_ascii list_ascii_of_string];
    repeat (apply Forall_cons || apply Forall_nil);
    intros b; destruct b as [[] [] [] [] [] [] [] []]; reflexivity.
Qed.

Lemma match_char_lower (a : ascii) (s : string) :
  match_char a (lower_string s) = option_map lower_string (match_char a s).
Proof.
  destruct s as [|c s]; [reflexivity|].
  cbn [lower_string]. unfold match_char. rewrite lower_idempotent.
  destruct (Ascii.eqb (ascii_lower a) (ascii_lower c)); [reflexivity|].
  change (String (ascii_lower c) (lower_string s))
    with (lower_string (String c s)).
  apply first_prefix_lower, fold_equivalents_lower.
Qed.

Lemma match_here_lower (p : string) :
  forall s, match_here p (lower_string s) = match_here p s.
Proof.
  induction p as [|a p IH]; intros s; [reflexivity|].
  cbn [match_here]. rewrite match_char_lower.
  destruct (match_char a s); [apply IH | reflexivity].
Qed.

Lemma search_lower (alts : list string) (s : string) :
  search alts (lower_string s) = search alts s.
Proof.
  assert (Halts : forall t, match_alternatives alts (lower_string t)
                            = match_alternatives alts t).
  { intros t. unfold match_alternatives.
    induction alts as [|p alts IH]; [reflexivity|].
    cbn [existsb]. now rewrite match_here_lower, IH. }
  induction s as [|c s IH].
  - reflexivity.
  - change (lower_string (String c s))
      with (String (ascii_lower c) (lower_string s)).
    cbn [search].
    change (String (ascii_lower c) (lower_string s))
      with (lower_string (String c s)).
    now rewrite Halts, IH.
Qed.

(** X8: whether a text matches depends only on the text with its ASCII
    letters in lower case, and a text that holds a matching text matches:
    the search is for a keyword anywhere, in any letter case. *)
Theorem search_ignores_case_and_context (alts : list string) (s : string) :
  search alts (lower_string s) = search alts s /\
  (forall t, lower_string t = lower_string s -> search alts t = search alts s) /\
  (forall before after,
     search alts s = true -> search alts (before ++ s ++ after) = true).
Proof.
  split; [apply search_lower|]. split.
  - intros t Ht. now rewrite <- (search_lower alts t), Ht, search_lower.
  - intros before after. rewrite !search_mentions.
    intros [p [w [Hin [Hw [b [a Hs]]]]]]. exists p, w.
    split; [exact Hin|]. split; [exact Hw|].
    exists (before ++ b), (a ++ after).
    rewrite Hs, !append_assoc. reflexivity.
Qed.

Lemma mention_at_other (c : ascii) (s : string) :
  Ascii.eqb c "<" = false -> mention_at (String c s) = None.
Proof.
  intros H. unfold mention_at.
  destruct c as [[] [] [] [] [] [] [] []]; try reflexivity; discriminate H.
Qed.

Lemma sub_mentions_keeps (a b : string) :
  no_angle a = true -> sub_mentions 0 (a ++ b) = a ++ sub_mentions 0 b.
Proof.
  induction a as [|c a IH]; [reflexivity|].
  cbn [no_angle]. intros H. apply andb_prop in H. destruct H as [Hc Ha].
  apply negb_true_iff in Hc.
  change (String c a ++ b) with (String c (a ++ b)).
  cbn [sub_mentions]. rewrite (mention_at_other c (a ++ b) Hc).
  cbn [append]. now rewrite (IH Ha).
Qed.

Lemma sub_mentions_shorter (s : string) :
  forall skip,
    (String.length (sub_mentions skip s) <= String.length s)%nat.
Proof.
  induction s as [|c s IH]; intros skip; [cbn; lia|].
  cbn [sub_mentions String.length].
  destruct skip as [|k].
  - destruct (mention_at (String c s)) as [n|].
    + specialize (IH (Nat.pred n)). lia.
    + cbn [String.length]. specialize (IH 0%nat). lia.
  - specialize (IH k). lia.
Qed.

(** X13: removing the mentions only removes: a text without the character
    ["<"] is left as it is, and no text gets longer. *)
Theorem sub_mentions_only_removes (s : string) :
  (no_angle s = true -> sub_mentions 0 s = s) /\
  (String.length (sub_mentions 0 s) <= String.length s)%nat.
Proof.
  split; [|apply sub_mentions_shorter].
  intros H. rewrite <- (append_nil_r s) at 1.
  rewrite (sub_mentions_keeps s "" H). apply append_nil_r.
Qed.

Lemma all_space_no_angle (s : string) : all_space s = true -> no_angle s = true.
Proof.
  induction s as [|c s IH]; [reflexivity|].
  cbn [all_space no_angle]. intros H. apply andb_prop in H.
  destruct H as [Hc Hs]. rewrite (IH Hs), andb_true_r.
  destruct c as [[] [] [] [] [] [] [] []]; try reflexivity; discriminate Hc.
Qed.

Lemma all_space_append (a b : string) :
  all_space (a ++ b) = all_space a && all_space b.
Proof.
  induction a as [|c a IH]; [reflexivity|].
  cbn [append all_space]. now rewrite IH, andb_assoc.
Qed.

Lemma lstrip_upto_all_space (n : nat) :
  forall s, all_space s = true -> (String.length s <= n)%nat ->
            lstrip_upto n s = "".
Proof.
  induction n as [|n IH]; intros s Hs Hl.
  - destruct s; [reflexivity | cbn [String.length] in Hl; lia].
  - destruct s as [|c s]; [reflexivity|].
    cbn [all_space] in Hs. apply andb_prop in Hs. destruct Hs as [Hc Hs].
    cbn [lstrip_upto space_at]. rewrite Hc.
    apply IH; [exact Hs | cbn [String.length] in Hl; lia].
Qed.

Lemma strip_all_space (s : string) : all_space s = true -> strip s = "".
Proof.
  intros H. unfold strip, lstrip.
  now rewrite (lstrip_upto_all_space _ s H (le_n _)).
Qed.

(** The text left of a message that is a mention surrounded by white
    space. *)
Lemma bare_mention_text (lead id trail : string) :
  all_space lead = true -> id <> "" -> all_id_chars id = true ->
  all_space trail = true ->
  strip (sub_mentions 0 (lead ++ "<@" ++ id ++ ">" ++ trail)) = "".
Proof.
  intros Hlead Hne Hid Htrail.
  rewrite (sub_mentions_keeps lead _ (all_space_no_angle _ Hlead)).
  change ("<@" ++ id ++ ">" ++ trail) with ("<@" ++ id ++ String ">" trail).
  rewrite (sub_mentions_token id trail Hne Hid).
  rewrite <- (append_nil_r trail) at 1.
  rewrite (sub_mentions_keeps trail "" (all_space_no_angle _ Htrail)).
  cbn [sub_mentions]. rewrite append_nil_r.
  apply strip_all_space. now rewrite all_space_append, Hlead, Htrail.
Qed.

End TextAndPatterns.

Section BareMention.

Variable app_client : client.
Variable agent : string -> result AgentResult.

Lemma mention_handler_first_call (event : MessageEvent) :
  exists rest,
    trace (handle_app_mentions app_client agent event) =
    AgentCall (strip (sub_mentions 0 (text_of event))) :: rest.
Proof.
  run_handler handle_app_mentions. split_run; cbn [fst app];
    eexists; reflexivity.
Qed.

(** X9: a mention with nothing but white space around it still goes to
    the agent: the first call of the handler is the agent, with the empty
    string as the query. *)
Theorem bare_mention_asks_the_empty_query
  (event : MessageEvent) (lead id trail : string) :
  all_space lead = true -> id <> "" -> all_id_chars id = true ->
  all_space trail = true ->
  text event = Some (lead ++ "<@" ++ id ++ ">" ++ trail) ->
  exists rest,
    trace (handle_app_mentions app_client agent event) = AgentCall "" :: rest.
Proof.
  intros Hlead Hne Hid Htrail Htext.
  destruct (mention_handler_first_call event) as [rest H].
  exists rest. rewrite H. unfold text_of. rewrite Htext.
  now rewrite (bare_mention_text lead id trail Hlead Hne Hid Htrail).
Qed.

End BareMention.

(* ================================================================== *)
(** ** The formatter on what the tools return *)

Section ToolResponses.

Variable repr : pyval -> string.

Lemma lookup_none (k : string) (d : pydict) :
  lookup k d = None <-> ~ In k (map fst d).
Proof.
  induction d as [|[k' v] d IH]; cbn [lookup map fst In]; [tauto|].
  destruct (String.eqb_spec k k') as [->|Hne].
  - split; [discriminate | intros H; exfalso; apply H; now left].
  - rewrite IH. split; [intros H [E|Hin]; [congruence | tauto] | tauto].
Qed.

(** X10: [parse_tool_response] returns on every result of
    [calculate_complexity].  For a name of the table the text starts with
    the algorithm line, followed by the time complexity; for any other
    name it is the error line saying that the algorithm was not found. *)
Theorem complexity_responses_are_formatted (algorithm_type : string) :
  (In algorithm_type known_algorithms ->
   exists rest,
     Utils.parse_tool_response repr (Tools.calculate_complexity algorithm_type)
     = ok ("*Algorithm:* " ++ algorithm_type ++ nl ++ nl ++
           "*Time Complexity:*" ++ rest)) /\
  (~ In algorithm_type known_algorithms ->
   Utils.parse_tool_response repr (Tools.calculate_complexity algorithm_type)
   = ok ("Error: Algorithm '" ++ algorithm_type ++ "' not found in database")).
Proof.
  split.
  - unfold known_algorithms. cbn [map fst Tools.complexity_map In].
    intros H; repeat (destruct H as [<-|H]; [eexists; reflexivity|]).
    destruct H.
  - intros H. apply lookup_none in H.
    unfold Tools.calculate_complexity. now rewrite H.
Qed.

(** X11: [parse_tool_response] returns on every result of
    [calculate_statistics], whatever NumPy does and whatever the numbers
    are: when every NumPy call returned, the statistics block with the
    length of the list as the count and the values NumPy returned, the
    interquartile range being the third quartile minus the first; and
    otherwise the error line with the message of the exception. *)
Theorem statistics_responses_are_formatted
  (np : Tools.numpy) (numbers : list float) :
  match Tools.calculate_statistics_body np numbers with
  | inl e =>
      Utils.parse_tool_response repr (Tools.calculate_statistics np numbers)
      = ok ("Error: " ++ str_exn e)
  | inr _ =>
      exists quartiles q1 q3 mean median std_dev min max,
        Tools.percentile np numbers
          [Tools.lit 25; Tools.lit 50; Tools.lit 75] = inr quartiles /\
        Tools.index quartiles 0 = inr q1 /\
        Tools.index quartiles 2 = inr q3 /\
        Tools.mean np numbers = inr mean /\
        Tools.median np numbers = inr median /\
        Tools.std np numbers = inr std_dev /\
        Tools.min np numbers = inr min /\
        Tools.max np numbers = inr max /\
        Utils.parse_tool_response repr (Tools.calculate_statistics np numbers)
        = ok (statistics_block (str_nat (List.length numbers))
                (format_f 4 mean) (format_f 4 median) (format_f 4 std_dev)
                (format_f 4 min) (format_f 4 max)
                (format_f 4 (SFsub 53 1024 q3 q1)))
  end.
Proof.
  unfold Tools.calculate_statistics.
  destruct (Tools.calculate_statistics_body np numbers) as [e|response] eqn:E;
    [reflexivity|].
  unfold Tools.calculate_statistics_body in E.
  repeat match type of E with
         | bind ?m _ = inr _ =>
             let a := fresh "a" in
             destruct m as [?|a] eqn:?; cbn [bind] in E; [discriminate E|]
         end.
  injection E as <-.
  repeat match goal with
         | H : ok _ = inr _ |- _ => injection H as <-
         end.
  do 8 eexists.
  repeat (split; [first [reflexivity | eassumption]|]).
  rewrite dispatch_statistics by reflexivity.
  erewrite format_statistics_floats by reflexivity.
  reflexivity.
Qed.

Lemma format_complexity_shape (response : pydict) (out : string) :
  Utils.format_complexity repr response = inr out ->
  exists rest, out = "*Algorithm:* " ++ rest.
Proof.
  unfold Utils.format_complexity. intros H.
  repeat (apply bind_ok in H; destruct H as [? [_ H]]).
  match type of H with
  | match ?c with _ => _ end = _ => destruct c; try discriminate H
  end.
  injection H as <-.
  repeat match goal with
         | |- context [if ?b then _ else _] => destruct b
         end;
    eexists; rewrite ?append_assoc; reflexivity.
Qed.

(** X12: the shape of a response is decided in a fixed order, and the
    first line of the text tells it: a map whose [success] is absent or
    falsy gives the error line even when it holds [solution], [mean] or
    [complexity]; then [solution] wins, then [mean], then [complexity]. *)
Theorem dispatch_priority (response : pydict) (out : string) :
  Utils.parse_tool_response repr response = inr out ->
  (truthy (get response "success" (VBool false)) = false ->
   prefix_of "Error: " out = true) /\
  (truthy (get response "success" (VBool false)) = true ->
   (contains response "solution" = true ->
    prefix_of "*Solution:* " out = true) /\
   (contains response "solution" = false ->
    contains response "mean" = true ->
    prefix_of "*Statistical Analysis:*" out = true) /\
   (contains response "solution" = false ->
    contains response "mean" = false ->
    contains response "complexity" = true ->
    prefix_of "*Algorithm:* " out = true)).
Proof.
  intros Hout. split; [|intros Hs; split; [|split]].
  - intros Hs. rewrite (dispatch_failure repr _ Hs) in Hout.
    injection Hout as <-. reflexivity.
  - intros Hsol. rewrite (dispatch_solution repr _ Hs Hsol) in Hout.
    apply contains_lookup in Hsol. destruct Hsol as [solution Hsol].
    destruct (format_solution_shape repr _ _ _ Hsol Hout) as [rest ->].
    reflexivity.
  - intros Hsol Hmean.
    rewrite (dispatch_statistics repr _ Hs Hsol Hmean) in Hout.
    destruct (format_statistics_shape repr _ _ Hout) as [rest ->].
    reflexivity.
  - intros Hsol Hmean Hcx.
    rewrite (dispatch_complexity repr _ Hs Hsol Hmean Hcx) in Hout.
    destruct (format_complexity_shape _ _ Hout) as [rest ->].
    reflexivity.
Qed.

End ToolResponses.

(* ================================================================== *)
(** ** What is posted when the agent answers *)

Section Replies.

Variable app_client : client.
Variable agent : string -> result AgentResult.

(** X14: when the agent answers and its text [t] is extracted, the first
    post of the message handler carries the placeholder if [t] holds the
    marker [image_base64] and [t] otherwise; the mention handler and the
    reaction handler post [t] as it is, whatever it holds. *)
Theorem reply_text (r : AgentResult) (t : string) :
  extract_text_from_result r = inr t ->
  (forall event,
     is_bot event = false ->
     search MATH_PATTERN (text_of event) = true ->
     agent (text_of event) = inr r ->
     exists rest,
       posted (trace (handle_message_events app_client agent event)) =
       (if substring_of "image_base64" t then placeholder else t) :: rest) /\
  (forall event,
     agent (strip (sub_mentions 0 (text_of event))) = inr r ->
     exists rest,
       posted (trace (handle_app_mentions app_client agent event)) = t :: rest) /\
  (forall event user_id first others,
     auth_test app_client = inr user_id ->
     eqb_option (user event) user_id = false ->
     is_question event = true ->
     conversations_history app_client (item_channel event) (item_ts event) true 1
     = inr (first :: others) ->
     agent (text_or_empty first) = inr r ->
     posted (trace (handle_reaction_added app_client agent event)) = [ t ]).
Proof.
  intros Htext. split; [|split].
  - intros event Hbot Hmatch Hagent.
    unfold handle_message_events. cbv zeta. rewrite Hbot, Hmatch.
    run_handler handle_message_events.
    rewrite Hagent; reduce_io. rewrite Htext; reduce_io.
    set (reply := if substring_of "image_base64" t then placeholder else t).
    destruct (reactions_add app_client _ _ _) as [er|[]]; reduce_io;
      destruct (chat_postMessage app_client _ _ reply) as [ep|u];
      reduce_io; eexists; reflexivity.
  - intros event Hagent. run_handler handle_app_mentions.
    rewrite Hagent; reduce_io. rewrite Htext; reduce_io.
    destruct (chat_postMessage app_client _ _ t) as [ep|u];
      reduce_io; eexists; reflexivity.
  - intros event user_id first others Hauth Huser Hq Hhistory Hagent.
    unfold is_question in Hq. unfold text_or_empty in Hagent.
    unfold handle_reaction_added.
    unfold io_bind at 1. unfold perform at 1. rewrite Hauth. reduce_io.
    rewrite Huser, Hq.
    run_handler handle_reaction_added. rewrite Hhistory. reduce_io.
    rewrite Hagent; reduce_io. rewrite Htext; reduce_io.
    destruct (chat_postMessage app_client _ _ t) as [ep|u];
      reduce_io; reflexivity.
Qed.

End Replies.

(** *** The further properties on concrete inputs *)

Section FurtherExamples.

Import Examples.

Lemma reaction_handler_gate_witness :
  auth_test reliable_client = inr "UBOT" /\
  eqb_option (user own_reaction) "UBOT" = true /\
  handle_reaction_added reliable_client plot_agent own_reaction
  = ([ AuthTest ], inr tt).
Proof.
  split; [reflexivity|]. split; [reflexivity|].
  apply (proj1 (reaction_handler_gate reliable_client plot_agent own_reaction)
           "UBOT" eq_refl).
  now left.
Defined.

Lemma handlers_raise_only_from_the_error_reply_witness :
  outcome (handle_message_events reliable_client broken_agent
             (message "solve x**2 - 4")) = inr tt /\
  outcome (handle_app_mentions reliable_client broken_agent
             (message "solve x**2 - 4")) = inr tt.
Proof.
  apply (proj2 (handlers_raise_only_from_the_error_reply reliable_client
                  broken_agent (message "solve x**2 - 4"))).
  reflexivity.
Defined.

Lemma bare_mention_asks_the_empty_query_witness :
  text (message " <@U123ABC> ") = Some (" " ++ "<@" ++ "U123ABC" ++ ">" ++ " ") /\
  exists rest,
    trace (handle_app_mentions reliable_client block_agent
             (message " <@U123ABC> ")) = AgentCall "" :: rest.
Proof.
  split; [reflexivity|].
  apply (bare_mention_asks_the_empty_query reliable_client block_agent
           (message " <@U123ABC> ") " " "U123ABC" " ");
    (reflexivity || discriminate).
Defined.

Lemma dispatch_priority_witness :
  contains mean_and_complexity "mean" = true /\
  contains mean_and_complexity "complexity" = true /\
  prefix_of "*Statistical Analysis:*"
    (statistics_block "4" "2.5000" "2.5000" "2.5000" "2.5000" "2.5000" "2.5000")
  = true.
Proof.
  split; [reflexivity|]. split; [reflexivity|].
  apply (proj1 (proj2 (proj2
           (dispatch_priority no_repr mean_and_complexity
              (statistics_block "4" "2.5000" "2.5000" "2.5000" "2.5000"
                 "2.5000" "2.5000")
              eq_refl) eq_refl)));
    reflexivity.
Defined.

Lemma reply_text_witness :
  extract_text_from_result three_blocks = inr ("a" ++ nl ++ "b") /\
  exists rest,
    posted (trace (handle_app_mentions reliable_client block_agent
                     (message "<@U123ABC> solve x**2-4")))
    = ("a" ++ nl ++ "b") :: rest.
Proof.
  split; [reflexivity|].
  apply (proj1 (proj2
           (reply_text reliable_client block_agent three_blocks
              ("a" ++ nl ++ "b") eq_refl))
           (message "<@U123ABC> solve x**2-4")).
  reflexivity.
Defined.

End FurtherExamples.

(** *** Characters beyond ASCII *)

Section BeyondAscii.

Import Examples.

(** The capital I with a dot and the dotless i stand for [i], the long s
    for [s]; a full-width letter stands for no ASCII letter. *)
Lemma unicode_letters_are_folded :
  "İ" = utf8 [196; 176] /\ "ı" = utf8 [196; 177] /\ "ſ" = utf8 [197; 191] /\
  search MATH_PATTERN "İNTEGRAL nedir?" = true /\
  search MATH_PATTERN "matrıx" = true /\
  search MATH_PATTERN "ſolve x" = true /\
  search MATH_PATTERN "Ｍath" = false /\
  handle_message_events reliable_client block_agent (message "İNTEGRAL nedir?")
  = ([ ReactionsAdd "C024BE91L" "1700000000.000100" "brain";
       AgentCall "İNTEGRAL nedir?";
       ChatPostMessage "C024BE91L" "1700000000.000100" ("a" ++ nl ++ "b") ],
     inr tt).
Proof. repeat split. Qed.

(** White space beyond ASCII is stripped like a blank, at either end, and
    kept inside the text. *)
Lemma unicode_space_is_stripped :
  strip (sub_mentions 0 no_break_mention) = "solve x**2-4" /\
  strip (no_break_space ++ " a" ++ no_break_space ++ "b " ++ no_break_space)
  = "a" ++ no_break_space ++ "b" /\
  trimmed (no_break_space ++ "solve") = false /\
  trimmed ("solve" ++ no_break_space) = false /\
  queries (trace (handle_app_mentions reliable_client block_agent
                    (message no_break_mention)))
  = [ "solve x**2-4" ].
Proof. repeat split. Qed.

End BeyondAscii.
